(** * The Antigravity streaming client (antigravity/client.py)

    A shallow embedding of the backend stream decoder
    ([_stream_generate_content_single]), of the endpoint failover loop
    ([stream_generate_content]) and of the OpenAI chunk encoder
    ([convert_sse_to_openai_format], [generate_finish_chunk]), followed by
    the properties of the specification that were checked against them. *)

From Stdlib Require Import ZArith NArith List String Ascii Bool Lia.
From Stdlib Require Import DecimalString SpecFloat.
Import ListNotations.

Local Open Scope string_scope.
Local Open Scope list_scope.
Local Open Scope Z_scope.

(** ** Python values

    The values the client handles are the ones [json.loads] builds and
    [json.dumps] prints: [None], booleans, integers, floats, strings, lists
    and dictionaries with string keys.  A dictionary is an association list
    in insertion order; a lookup takes the first binding of a key.  Strings
    are byte strings holding the UTF-8 text. *)
Module Py.

#[local] Unset Elimination Schemes.
Inductive pyval : Type :=
| PNone
| PBool (b : bool)
| PInt (z : Z)
| PFloat (f : spec_float)
| PStr (s : string)
| PList (l : list pyval)
| PDict (d : list (string * pyval)).
#[local] Set Elimination Schemes.

(** The errors a dynamically typed access can raise inside the decoder.
    All of them are subclasses of [Exception]. *)
Inductive pyerr : Type := AttributeError | TypeError | KeyError | IndexError.

Inductive result (A : Type) : Type :=
| Ok (a : A)
| Raise (e : pyerr).
Arguments Ok {A} a.
Arguments Raise {A} e.

(** [bool(v)] *)
Definition truthy (v : pyval) : bool :=
  match v with
  | PNone => false
  | PBool b => b
  | PInt z => negb (z =? 0)
  | PFloat f => match f with S754_zero _ => false | _ => true end
  | PStr s => negb (s =? "")%string
  | PList l => match l with [] => false | _ => true end
  | PDict d => match d with [] => false | _ => true end
  end.

(** [v is True] *)
Definition is_True (v : pyval) : bool :=
  match v with PBool true => true | _ => false end.

(** [v == s] for a string literal [s] *)
Definition eq_str (v : pyval) (s : string) : bool :=
  match v with PStr t => (t =? s)%string | _ => false end.

Fixpoint lookup (k : string) (d : list (string * pyval)) : option pyval :=
  match d with
  | [] => None
  | (k', v) :: d' => if (k' =? k)%string then Some v else lookup k d'
  end.

(** [v.get(k, default)]: only a dictionary has the method. *)
Definition get (v : pyval) (k : string) (default : pyval) : result pyval :=
  match v with
  | PDict d => Ok (match lookup k d with Some x => x | None => default end)
  | _ => Raise AttributeError
  end.

(** [d.get(k, default)] on a value known to be a dictionary. *)
Definition dict_get (d : list (string * pyval)) (k : string) (default : pyval) : pyval :=
  match lookup k d with Some x => x | None => default end.

(** [s in haystack] on strings *)
Fixpoint contains (needle haystack : string) : bool :=
  if String.prefix needle haystack then true
  else match haystack with
       | EmptyString => false
       | String _ rest => contains needle rest
       end.

(** [k in v] for a string literal [k]: key of a dictionary, element of a
    list, substring of a string; a [TypeError] on anything else. *)
Definition contains_key (k : string) (v : pyval) : result bool :=
  match v with
  | PDict d => Ok (match lookup k d with Some _ => true | None => false end)
  | PList l => Ok (existsb (fun x => eq_str x k) l)
  | PStr s => Ok (contains k s)
  | _ => Raise TypeError
  end.

(** [v[k]] for a string literal [k] *)
Definition getitem (v : pyval) (k : string) : result pyval :=
  match v with
  | PDict d => match lookup k d with Some x => Ok x | None => Raise KeyError end
  | _ => Raise TypeError
  end.

(** [v[0]] *)
Definition index0 (v : pyval) : result pyval :=
  match v with
  | PList (x :: _) => Ok x
  | PList [] => Raise IndexError
  | PStr (String c _) => Ok (PStr (String c EmptyString))
  | PStr EmptyString => Raise IndexError
  | PDict _ => Raise KeyError
  | _ => Raise TypeError
  end.

Fixpoint chars (s : string) : list pyval :=
  match s with
  | EmptyString => []
  | String c rest => PStr (String c EmptyString) :: chars rest
  end.

(** The items a [for x in v] loop visits: the elements of a list, the keys
    of a dictionary, the characters of a string; a [TypeError] otherwise. *)
Definition iter (v : pyval) : result (list pyval) :=
  match v with
  | PList l => Ok l
  | PDict d => Ok (map (fun kv => PStr (fst kv)) d)
  | PStr s => Ok (chars s)
  | _ => Raise TypeError
  end.

(** [str.isspace] on a character of one byte: tab, LF, VT, FF, CR, FS,
    GS, RS, US and the space. *)
Definition is_space (c : ascii) : bool :=
  let n := nat_of_ascii c in
  ((9 <=? n) && (n <=? 13) || (28 <=? n) && (n <=? 32))%nat.

(** [str.isspace] on a character of two bytes in UTF-8: U+0085 (C2 85)
    and U+00A0 (C2 A0). *)
Definition is_space2 (c1 c2 : ascii) : bool :=
  (N_of_ascii c1 =? 194)%N
  && ((N_of_ascii c2 =? 133) || (N_of_ascii c2 =? 160))%N.

(** [str.isspace] on a character of three bytes in UTF-8: U+1680
    (E1 9A 80), U+2000 to U+200A (E2 80 80 to E2 80 8A), U+2028, U+2029
    and U+202F (E2 80 A8, A9 and AF), U+205F (E2 81 9F) and U+3000
    (E3 80 80).  No character of four bytes is a space. *)
Definition is_space3 (c1 c2 c3 : ascii) : bool :=
  let n1 := N_of_ascii c1 in
  let n2 := N_of_ascii c2 in
  let n3 := N_of_ascii c3 in
  ((n1 =? 225) && (n2 =? 154) && (n3 =? 128)
   || (n1 =? 226) && (n2 =? 128)
      && ((128 <=? n3) && (n3 <=? 138)
          || (n3 =? 168) || (n3 =? 169) || (n3 =? 175))
   || (n1 =? 226) && (n2 =? 129) && (n3 =? 159)
   || (n1 =? 227) && (n2 =? 128) && (n3 =? 128))%N.

(** [s.lstrip()]: the characters are read off the UTF-8 bytes from the
    left. *)
Fixpoint lstrip (s : string) : string :=
  match s with
  | EmptyString => s
  | String c1 r1 =>
      if is_space c1 then lstrip r1
      else
        match r1 with
        | EmptyString => s
        | String c2 r2 =>
            if is_space2 c1 c2 then lstrip r2
            else
              match r2 with
              | EmptyString => s
              | String c3 r3 => if is_space3 c1 c2 c3 then lstrip r3 else s
              end
        end
  end.

(** The string is made of space characters only, or is empty. *)
Fixpoint all_space (s : string) : bool :=
  match s with
  | EmptyString => true
  | String c1 r1 =>
      if is_space c1 then all_space r1
      else
        match r1 with
        | EmptyString => false
        | String c2 r2 =>
            if is_space2 c1 c2 then all_space r2
            else
              match r2 with
              | EmptyString => false
              | String c3 r3 => is_space3 c1 c2 c3 && all_space r3
              end
        end
  end.

(** [s.rstrip()]: the string is cut where only space characters follow.
    In UTF-8 no space character starts with a continuation byte, so the
    cut falls between two characters. *)
Fixpoint rstrip (s : string) : string :=
  match s with
  | EmptyString => EmptyString
  | String c rest => if all_space s then EmptyString else String c (rstrip rest)
  end.

(** [s.strip()] *)
Definition strip (s : string) : string := rstrip (lstrip s).

(** [s[n:]] *)
Fixpoint drop (n : nat) (s : string) : string :=
  match n, s with
  | O, _ => s
  | S n', String _ rest => drop n' rest
  | S _, EmptyString => EmptyString
  end.

(** The line feed, written ['\n'] in the source. *)
Definition LF : string := String "010"%char EmptyString.

(** [str(z)] for an integer *)
Definition str_int (z : Z) : string := NilZero.string_of_int (Z.to_int z).

(** A value of [time.time()]: the double [mantissa * 2^-shift], with its
    sign.  Every double below 2^53 in magnitude is of this form with a
    mantissa below 2^53. *)
Record reading : Type := mk_reading {
  negative : bool;
  mantissa : N;
  shift : N
}.

Definition float_of (t : reading) : spec_float :=
  match mantissa t with
  | N0 => S754_zero (negative t)
  | Npos m => S754_finite (negative t) m (- Z.of_N (shift t))
  end.

(** [x * 1000] on doubles: the product rounded to the nearest double,
    ties to even. *)
Definition times_1000 (x : spec_float) : spec_float :=
  SFmul 53 1024 x (S754_finite false 1000 0).

(** [int(x)] on a double: truncation towards zero.  The doubles [int]
    raises on, the infinities and NaN, are neither a reading nor, for a
    reading with a mantissa below 2^53, its product by 1000. *)
Definition int_of (x : spec_float) : Z :=
  match x with
  | S754_finite s m e =>
      let a := if 0 <=? e then Zpos m * 2 ^ e else Zpos m / 2 ^ (- e) in
      if s then - a else a
  | _ => 0
  end.

End Py.
Import Py.

(** ** Normalized events

    The decoder yields dictionaries.  The constructors below keep apart the
    five places of the source that build one; [event_dict] is the
    dictionary each of them yields.  [OpenMarker] and [CloseMarker] are the
    two synthetic thinking events that bracket a run of thought parts. *)
Inductive event : Type :=
| OpenMarker
| CloseMarker
| Thinking (content : pyval)
| Text (content : pyval)
| ToolCalls (calls : list pyval).

Definition event_dict (e : event) : list (string * pyval) :=
  match e with
  | OpenMarker => [("type", PStr "thinking"); ("content", PStr ("<think>" ++ LF))]
  | CloseMarker => [("type", PStr "thinking"); ("content", PStr (LF ++ "</think>" ++ LF))]
  | Thinking c => [("type", PStr "thinking"); ("content", c)]
  | Text c => [("type", PStr "text"); ("content", c)]
  | ToolCalls l => [("type", PStr "tool_calls"); ("tool_calls", PList l)]
  end.

(** ** The decoder of one endpoint's stream

    [thinking_started] and [tool_calls] are the two locals of
    [_stream_generate_content_single] that live across records. *)
Record dstate : Type := mk_dstate {
  thinking_started : bool;
  tool_calls : list pyval
}.

Definition initial_dstate : dstate := mk_dstate false [].

(** A piece of the generator's body: from the decoder state it yields
    events, leaves a new state and either completes or raises.  What was
    yielded and assigned before a raise stays so. *)
Definition gen (A : Type) : Type := dstate -> list event * dstate * result A.

Definition ret {A} (a : A) : gen A := fun st => ([], st, Ok a).

Definition bind {A B} (m : gen A) (k : A -> gen B) : gen B :=
  fun st =>
    match m st with
    | (evs, st1, Ok a) =>
        match k a st1 with
        | (evs', st2, r) => (evs ++ evs', st2, r)
        end
    | (evs, st1, Raise e) => (evs, st1, Raise e)
    end.

Notation "x <- m ;; k" := (bind m (fun x => k))
  (at level 61, m at next level, right associativity).
Notation "m ;;; k" := (bind m (fun _ => k))
  (at level 61, right associativity).

Definition lift {A} (r : result A) : gen A := fun st => ([], st, r).
Definition yield (e : event) : gen unit := fun st => ([e], st, Ok tt).
Definition get_state : gen dstate := fun st => ([], st, Ok st).
Definition set_thinking (b : bool) : gen unit :=
  fun st => ([], mk_dstate b (tool_calls st), Ok tt).
Definition set_tool_calls (l : list pyval) : gen unit :=
  fun st => ([], mk_dstate (thinking_started st) l, Ok tt).

(** [for x in items: body(x)] *)
Fixpoint for_each (body : pyval -> gen unit) (items : list pyval) : gen unit :=
  match items with
  | [] => ret tt
  | x :: rest => body x ;;; for_each body rest
  end.

(** The dictionary appended to [tool_calls] for a [functionCall] value
    (lines 104-111). *)
Definition tool_call_request (function_call : pyval) : result pyval :=
  match get function_call "id" (PStr "") with
  | Raise e => Raise e
  | Ok id =>
    match get function_call "name" (PStr "") with
    | Raise e => Raise e
    | Ok name =>
      match get function_call "args" (PDict []) with
      | Raise e => Raise e
      | Ok args =>
        match get args "query" (PStr "{}") with
        | Raise e => Raise e
        | Ok arguments =>
            Ok (PDict [("id", id);
                       ("type", PStr "function");
                       ("function", PDict [("name", name);
                                           ("arguments", arguments)])])
        end
      end
    end
  end.

(** The body of [for part in parts] (lines 92-111). *)
Definition process_part (part : pyval) : gen unit :=
  thought <- lift (get part "thought" PNone) ;;
  if is_True thought then
    st <- get_state ;;
    (if negb (thinking_started st)
     then yield OpenMarker ;;; set_thinking true
     else ret tt) ;;;
    content <- lift (get part "text" (PStr "")) ;;
    yield (Thinking content)
  else
    has_text <- lift (contains_key "text" part) ;;
    if (has_text : bool) then
      st <- get_state ;;
      (if thinking_started st
       then yield CloseMarker ;;; set_thinking false
       else ret tt) ;;;
      content <- lift (get part "text" (PStr "")) ;;
      yield (Text content)
    else
      has_call <- lift (contains_key "functionCall" part) ;;
      if (has_call : bool) then
        function_call <- lift (getitem part "functionCall") ;;
        request <- lift (tool_call_request function_call) ;;
        st <- get_state ;;
        set_tool_calls (tool_calls st ++ [request])
      else ret tt.

(** The check made after the parts of a candidate (lines 113-119). *)
Definition finish_check (candidate : pyval) : gen unit :=
  finish_reason <- lift (get candidate "finishReason" PNone) ;;
  st <- get_state ;;
  if truthy finish_reason && truthy (PList (tool_calls st)) then
    (if thinking_started st
     then yield CloseMarker ;;; set_thinking false
     else ret tt) ;;;
    st' <- get_state ;;
    yield (ToolCalls (tool_calls st')) ;;;
    set_tool_calls []
  else ret tt.

(** The body of the [try] once the payload is parsed (lines 84-119). *)
Definition process_data (data : pyval) : gen unit :=
  response <- lift (get data "response" (PDict [])) ;;
  candidates <- lift (get response "candidates" (PList [])) ;;
  if negb (truthy candidates) then ret tt
  else
    candidate <- lift (index0 candidates) ;;
    content <- lift (get candidate "content" (PDict [])) ;;
    parts <- lift (get content "parts" (PList [])) ;;
    items <- lift (iter parts) ;;
    for_each process_part items ;;;
    finish_check candidate.

(** ** Exceptions and the transport

    An exception is its class, as far as the [except] clauses of
    [stream_generate_content] tell classes apart, and its [str()].
    [TimeoutException] is [httpx.TimeoutException]; [HTTPError] is any other
    [httpx.HTTPError]; [ValueError] is what the decoder raises on status 403;
    [OtherException] is any other subclass of [Exception];
    [NotAnException] is a [BaseException] outside [Exception] (a
    cancellation). *)
Inductive exn_class : Type :=
| TimeoutException | HTTPError | ValueError | OtherException | NotAnException.

Record exn : Type := mk_exn {
  exn_class_of : exn_class;
  exn_str : string
}.

(** What [client.stream('POST', api_url, ...)] gives once a response has
    arrived: the status, the outcome of [response.aread()] decoded as text,
    the lines [response.aiter_lines()] produces and how it ends (exhausted,
    or raising). *)
Record response : Type := mk_response {
  status_code : Z;
  aread : exn + string;
  aiter_lines : list string;
  aiter_end : option exn
}.

(** Opening the stream either raises or gives a response. *)
Inductive connection : Type :=
| Failed (e : exn)
| Opened (r : response).

(** What a run of [stream_generate_content] shows from outside: the URLs
    it posted to, the events it yielded and how it ended ([None]: it
    returned). *)
Record run : Type := mk_run {
  attempts : list string;
  yielded : list event;
  raised : option exn
}.

(** A run that first posts to [api_url] and yields [chunks], then goes on
    as [r]: the [continue] of the failover loop. *)
Definition and_then (api_url : string) (chunks : list event) (r : run) : run :=
  mk_run (api_url :: attempts r) (chunks ++ yielded r) (raised r).

Section Client.

(** [json.loads]; [None] stands for a [JSONDecodeError]. *)
Variable json_loads : string -> option pyval.

(** The connection the attempt with index [i], posted to the given URL,
    gets from httpx. *)
Variable post : Z -> string -> connection.

(** The [try] of the record loop (lines 82-125): both handlers go on
    with the next line. *)
Definition process_record (json_str : string) (st : dstate) : list event * dstate :=
  match json_loads json_str with
  | None => ([], st)
  | Some data => fst (process_data data st)
  end.

(** The loop over the lines (lines 73-125).  The boolean tells that the
    loop was left by [break], on the [[DONE]] payload. *)
Fixpoint sse_loop (lines : list string) (st : dstate) : list event * dstate * bool :=
  match lines with
  | [] => ([], st, false)
  | line :: rest =>
      if (line =? "")%string || negb (String.prefix "data: " line) then
        sse_loop rest st
      else
        let json_str := drop 6 line in
        if (strip json_str =? "[DONE]")%string then ([], st, true)
        else
          let '(evs, st1) := process_record json_str st in
          let '(evs', st2, broke) := sse_loop rest st1 in
          (evs ++ evs', st2, broke)
  end.

(** The generator over one connection: the events it yields and the
    exception it ends with, if any. *)
Definition decode_connection (conn : connection) : list event * option exn :=
  match conn with
  | Failed e => ([], Some e)
  | Opened r =>
      if status_code r =? 403 then
        match aread r with
        | inl e => ([], Some e)
        | inr error_text =>
            ([], Some (mk_exn ValueError
                         ("403 Forbidden - 该账号没有使用权限: " ++ error_text)))
        end
      else if negb (status_code r =? 200) then
        match aread r with
        | inl e => ([], Some e)
        | inr error_text =>
            ([], Some (mk_exn HTTPError
                         ("API 请求失败 (" ++ str_int (status_code r) ++ "): "
                          ++ error_text)))
        end
      else
        let '(evs, _, broke) := sse_loop (aiter_lines r) initial_dstate in
        (evs, if (broke : bool) then None else aiter_end r)
  end.

Definition _stream_generate_content_single (attempt : Z) (api_url : string)
  : list event * option exn :=
  decode_connection (post attempt api_url).

(** The status the failover loop reads off the text of an [HTTPError]
    (lines 195-199). *)
Definition status_of_error (error_str : string) : option Z :=
  if contains "429" error_str then Some 429
  else if contains "500" error_str || contains "502" error_str
          || contains "503" error_str || contains "504" error_str
       then Some 500
       else None.

(** [status_code in (429, 500)] *)
Definition in_429_500 (status : option Z) : bool :=
  match status with
  | Some c => (c =? 429) || (c =? 500)
  | None => false
  end.

Section Failover.

Variable timeout : Z.

(** The [for] loop of [stream_generate_content] (lines 165-226) from the
    endpoint with index [endpoint_index] on; [n] is [len(endpoints)] and
    [rest] the endpoints still to visit. *)
Fixpoint try_endpoints (n endpoint_index : Z) (rest : list string)
    (last_error : option exn) : run :=
  match rest with
  | [] =>
      mk_run [] []
        (Some (match last_error with
               | Some e => e
               | None => mk_exn HTTPError "所有端点都失败"
               end))
  | api_url :: rest' =>
      let '(chunks, ended) := _stream_generate_content_single endpoint_index api_url in
      let continue e :=
        and_then api_url chunks
          (try_endpoints n (endpoint_index + 1) rest' (Some e)) in
      let stop r := mk_run [api_url] chunks r in
      match ended with
      | None => stop None
      | Some e =>
          match exn_class_of e with
          | TimeoutException =>
              let last_error :=
                mk_exn HTTPError
                  ("请求超时（超过 " ++ str_int timeout ++ " 秒）") in
              if endpoint_index <? n - 1 then continue last_error
              else stop (Some last_error)
          | HTTPError =>
              let status := status_of_error (exn_str e) in
              if in_429_500 status && (endpoint_index <? n - 1) then continue e
              else stop (Some e)
          | ValueError | OtherException =>
              if endpoint_index <? n - 1 then continue e
              else stop (Some e)
          | NotAnException => stop (Some e)
          end
      end
  end.

(** [endpoints], built from the two configured URLs (lines 159-161). *)
Definition endpoints_of (primary_url : string) (backup_url : option string)
  : list string :=
  primary_url ::
  match backup_url with
  | Some b => if negb (b =? "")%string && negb (strip b =? "")%string
              then [b] else []
  | None => []
  end.

Definition stream_generate_content (primary_url : string)
    (backup_url : option string) : run :=
  let endpoints := endpoints_of primary_url backup_url in
  try_endpoints (Z.of_nat (List.length endpoints)) 0 endpoints None.

End Failover.
End Client.

(** ** The caller-format encoder *)

(** A computation that may read the clock: [k] counts the calls of
    [time.time()] made so far. *)
Definition clocked (A : Type) : Type := nat -> A * nat.

(** The dictionary all three chunk literals of the source share; they
    differ in [delta] and [finish_reason]. *)
Definition completion_chunk (stream_id : string) (created : Z) (model : string)
    (delta : list (string * pyval)) (finish_reason : pyval) : pyval :=
  PDict [("id", PStr stream_id);
         ("object", PStr "chat.completion.chunk");
         ("created", PInt created);
         ("model", PStr model);
         ("choices", PList [PDict [("index", PInt 0);
                                   ("delta", PDict delta);
                                   ("finish_reason", finish_reason)]])].

(** [f"data: {payload}\n\n"] *)
Definition data_record (payload : string) : string :=
  "data: " ++ payload ++ LF ++ LF.

Section Encoder.

(** [json.dumps] *)
Variable json_dumps : pyval -> string.

(** The value the [k]-th call of [time.time()] returns, in seconds. *)
Variable time_time : nat -> reading.

Definition now : clocked spec_float := fun k => (float_of (time_time k), S k).

(** [if not stream_id: stream_id = f"chatcmpl-{int(time.time() * 1000)}"] *)
Definition stream_id_or_default (stream_id : option string) : clocked string :=
  fun k =>
    match stream_id with
    | Some s =>
        if negb (s =? "")%string then (s, k)
        else let '(t, k') := now k in
             (("chatcmpl-" ++ str_int (int_of (times_1000 t)))%string, k')
    | None =>
        let '(t, k') := now k in
        (("chatcmpl-" ++ str_int (int_of (times_1000 t)))%string, k')
    end.

(** [if not created: created = int(time.time())] *)
Definition created_or_default (created : option Z) : clocked Z :=
  fun k =>
    match created with
    | Some c =>
        if negb (c =? 0) then (c, k)
        else let '(t, k') := now k in (int_of t, k')
    | None => let '(t, k') := now k in (int_of t, k')
    end.

(** The [chunk] that [convert_sse_to_openai_format] builds for an event:
    [Ok None] where the source returns the empty string before building
    one, [Raise KeyError] where a 'tool_calls' event lacks its list. *)
Definition chunk_of_event (sse_chunk : list (string * pyval)) (model : string)
    (stream_id : option string) (created : option Z)
  : clocked (result (option pyval)) :=
  fun k =>
    let '(stream_id, k1) := stream_id_or_default stream_id k in
    let '(created, k2) := created_or_default created k1 in
    let chunk_type := dict_get sse_chunk "type" PNone in
    if eq_str chunk_type "thinking" then (Ok None, k2)
    else if eq_str chunk_type "tool_calls" then
      match lookup "tool_calls" sse_chunk with
      | Some calls =>
          (Ok (Some (completion_chunk stream_id created model
                       [("tool_calls", calls)] PNone)), k2)
      | None => (Raise KeyError, k2)
      end
    else if eq_str chunk_type "text" then
      (Ok (Some (completion_chunk stream_id created model
                   [("content", dict_get sse_chunk "content" (PStr ""))]
                   PNone)), k2)
    else (Ok None, k2).

Definition convert_sse_to_openai_format (sse_chunk : list (string * pyval))
    (model : string) (stream_id : option string) (created : option Z)
  : clocked (result string) :=
  fun k =>
    match chunk_of_event sse_chunk model stream_id created k with
    | (Ok (Some chunk), k') => (Ok (data_record (json_dumps chunk)), k')
    | (Ok None, k') => (Ok "", k')
    | (Raise e, k') => (Raise e, k')
    end.

(** The [chunk] of [generate_finish_chunk]. *)
Definition finish_chunk (model : string) (has_tool_calls : bool)
    (stream_id : option string) (created : option Z) : clocked pyval :=
  fun k =>
    let '(stream_id, k1) := stream_id_or_default stream_id k in
    let '(created, k2) := created_or_default created k1 in
    let finish_reason := if has_tool_calls then "tool_calls" else "stop" in
    (completion_chunk stream_id created model [] (PStr finish_reason), k2).

Definition generate_finish_chunk (model : string) (has_tool_calls : bool)
    (stream_id : option string) (created : option Z) : clocked string :=
  fun k =>
    let '(chunk, k') := finish_chunk model has_tool_calls stream_id created k in
    (("data: " ++ json_dumps chunk ++ LF ++ LF ++ "data: [DONE]" ++ LF ++ LF)%string, k').

End Encoder.

(** ** Vocabulary of the properties *)

(** The phase a sequence of events is in: outside a thinking section,
    right after its opening marker, or inside it. *)
Inductive phase : Type := Idle | JustOpened | InThought.

Definition phase_of (thinking : bool) : phase :=
  if thinking then InThought else Idle.

(** The moves a well-bracketed sequence of events may make. *)
Definition phase_step (p : phase) (e : event) : option phase :=
  match p, e with
  | Idle, OpenMarker => Some JustOpened
  | Idle, Text _ => Some Idle
  | Idle, ToolCalls _ => Some Idle
  | JustOpened, Thinking _ => Some InThought
  | InThought, Thinking _ => Some InThought
  | InThought, CloseMarker => Some Idle
  | _, _ => None
  end.

Fixpoint phase_run (p : phase) (evs : list event) : option phase :=
  match evs with
  | [] => Some p
  | e :: rest =>
      match phase_step p e with
      | Some p' => phase_run p' rest
      | None => None
      end
  end.

Definition is_open (e : event) : bool :=
  match e with OpenMarker => true | _ => false end.

Definition is_close (e : event) : bool :=
  match e with CloseMarker => true | _ => false end.

Definition is_tool_calls (e : event) : bool :=
  match e with ToolCalls _ => true | _ => false end.

Definition count_open (evs : list event) : nat := List.length (filter is_open evs).
Definition count_close (evs : list event) : nat := List.length (filter is_close evs).

(** The calls that the [ToolCalls] events of a sequence carry, in order. *)
Definition emitted_calls (evs : list event) : list pyval :=
  flat_map (fun e => match e with ToolCalls l => l | _ => [] end) evs.

(** The calls accounted for after some decoding: those already emitted
    and those waiting in the accumulator. *)
Definition ledger (evs : list event) (st : dstate) : list pyval :=
  emitted_calls evs ++ tool_calls st.

(** [v[k]] as an option, for reading a field of a built dictionary. *)
Definition field (k : string) (v : pyval) : option pyval :=
  match v with PDict d => lookup k d | _ => None end.

(** The only element of [chunk['choices']]. *)
Definition choice0 (chunk : pyval) : option pyval :=
  match field "choices" chunk with
  | Some (PList [c]) => Some c
  | _ => None
  end.

(** Whether the failover loop goes on to the next endpoint after the
    exception [e], when one is left. *)
Definition fails_over (e : exn) : bool :=
  match exn_class_of e with
  | TimeoutException => true
  | HTTPError => in_429_500 (status_of_error (exn_str e))
  | ValueError | OtherException => true
  | NotAnException => false
  end.

(** The exception the loop raises when it stops on [e]: a timeout is
    replaced by an [HTTPError] that tells the configured duration. *)
Definition surfaced (timeout : Z) (e : exn) : exn :=
  match exn_class_of e with
  | TimeoutException =>
      mk_exn HTTPError ("请求超时（超过 " ++ str_int timeout ++ " 秒）")
  | _ => e
  end.

(** A candidate carries a turn-completion signal: it is a dictionary
    whose 'finishReason' is truthy. *)
Definition completion_signal (candidate : pyval) : bool :=
  match candidate with
  | PDict d => truthy (dict_get d "finishReason" PNone)
  | _ => false
  end.

(** The three fields of a tool-call request. *)
Definition request_id (request : pyval) : option pyval := field "id" request.

Definition request_name (request : pyval) : option pyval :=
  match field "function" request with
  | Some f => field "name" f
  | None => None
  end.

Definition request_arguments (request : pyval) : option pyval :=
  match field "function" request with
  | Some f => field "arguments" f
  | None => None
  end.

(** The number of thinking sections a flag leaves open. *)
Definition open_sections (thinking : bool) : nat := if thinking then 1 else 0.

(** The two exceptions [_stream_generate_content_single] raises itself. *)
Definition forbidden_error (error_text : string) : exn :=
  mk_exn ValueError ("403 Forbidden - 该账号没有使用权限: " ++ error_text).

Definition status_error (status : Z) (error_text : string) : exn :=
  mk_exn HTTPError
    ("API 请求失败 (" ++ str_int status ++ "): " ++ error_text).

(** Whether an endpoint is left after the current one. *)
Definition remains (rest : list string) : bool :=
  match rest with [] => false | _ :: _ => true end.

(** What every piece of the decoder keeps: the events it yields are
    well bracketed from the phase of the flag before to the phase of the
    flag after, and no call leaves the ledger. *)
Definition keeps (st : dstate) (evs : list event) (st' : dstate) : Prop :=
  phase_run (phase_of (thinking_started st)) evs
  = Some (phase_of (thinking_started st'))
  /\ exists new, ledger evs st' = tool_calls st ++ new.

(** A piece of the generator's body keeps the bracketing and the
    ledger from every state. *)
Definition gen_keeps {A} (m : gen A) : Prop :=
  forall st, match m st with (evs, st', _) => keeps st evs st' end.

(** The thinking sections a phase leaves open. *)
Definition phase_weight (p : phase) : nat :=
  match p with Idle => 0 | _ => 1 end.

(** What a call that reads the clock at its [k]-th value makes of it:
    the id ["chatcmpl-" + str(int(time.time() * 1000))] and the timestamp
    [int(time.time())]. *)
Definition clock_id (time_time : nat -> reading) (k : nat) : string :=
  "chatcmpl-" ++ str_int (int_of (times_1000 (float_of (time_time k)))).

Definition clock_seconds (time_time : nat -> reading) (k : nat) : Z :=
  int_of (float_of (time_time k)).

(** The events the source yields with the type 'thinking'. *)
Definition is_thinking_event (e : event) : bool :=
  match e with
  | OpenMarker | CloseMarker | Thinking _ => true
  | _ => false
  end.

(** ** Sample streams *)
Module Sample.

Definition DQ : string := String "034"%char EmptyString.

(** A JSON string literal of plain text. *)
Definition q (s : string) : string := DQ ++ s ++ DQ.

(** [{"response": {"candidates": [{"content": {"parts": [PARTS]}REST}]}}] *)
Definition record_json (parts rest : string) : string :=
  "{" ++ q "response" ++ ": {" ++ q "candidates" ++ ": [{" ++ q "content"
  ++ ": {" ++ q "parts" ++ ": [" ++ parts ++ "]}" ++ rest ++ "}]}}".

Definition record_value (parts : list pyval) (rest : list (string * pyval)) : pyval :=
  PDict [("response",
          PDict [("candidates",
                  PList [PDict (("content", PDict [("parts", PList parts)])
                                :: rest)])])].

(** [{"thought": true, "text": "hmm"}] *)
Definition thought_json : string :=
  "{" ++ q "thought" ++ ": true, " ++ q "text" ++ ": " ++ q "hmm" ++ "}".
Definition thought_value : pyval :=
  PDict [("thought", PBool true); ("text", PStr "hmm")].

(** [{"text": "a"}] and [{"text": "b"}] *)
Definition text_json (s : string) : string :=
  "{" ++ q "text" ++ ": " ++ q s ++ "}".
Definition text_value (s : string) : pyval := PDict [("text", PStr s)].

(** [{"functionCall": {"name": "lookup", "args": {"query": "{}"}}}] *)
Definition call_json : string :=
  "{" ++ q "functionCall" ++ ": {" ++ q "name" ++ ": " ++ q "lookup" ++ ", "
  ++ q "args" ++ ": {" ++ q "query" ++ ": " ++ q "{}" ++ "}}}".
Definition call_value : pyval :=
  PDict [("functionCall",
          PDict [("name", PStr "lookup");
                 ("args", PDict [("query", PStr "{}")])])].

(** The request the decoder builds for [call_value]. *)
Definition lookup_request : pyval :=
  PDict [("id", PStr ""); ("type", PStr "function");
         ("function", PDict [("name", PStr "lookup");
                             ("arguments", PStr "{}")])].

(** [, "finishReason": "STOP"] *)
Definition finish_json : string := ", " ++ q "finishReason" ++ ": " ++ q "STOP".
Definition finish_value : list (string * pyval) := [("finishReason", PStr "STOP")].

(** [json.loads] on the payloads used below, every other text being
    taken as unparseable. *)
Definition table : list (string * pyval) :=
  [(record_json thought_json "", record_value [thought_value] []);
   (record_json (text_json "a") "", record_value [text_value "a"] []);
   (record_json (text_json "b") "", record_value [text_value "b"] []);
   (record_json call_json "", record_value [call_value] []);
   (record_json call_json finish_json, record_value [call_value] finish_value);
   (record_json (call_json ++ ", 5") finish_json,
    record_value [call_value; PInt 5] finish_value)].

Definition json_loads (s : string) : option pyval := lookup s table.

Definition data_line (payload : string) : string := "data: " ++ payload.

Definition ok_response (lines : list string) (ending : option exn) : connection :=
  Opened (mk_response 200 (inr "") lines ending).

Definition error_response (status : Z) (body : string) : connection :=
  Opened (mk_response status (inr body) [] None).

Definition primary : string := "https://primary.example/v1:stream".
Definition backup : string := "https://backup.example/v1:stream".

(** A transport whose first attempt gets [first] and every later one a
    stream with the single text "b". *)
Definition post_then_b (first : connection) (attempt : Z) (api_url : string)
  : connection :=
  if attempt =? 0 then first
  else ok_response [data_line (record_json (text_json "b") "")] None.

(** Transports for the runs studied below: what the primary endpoint
    does before the backup endpoint answers with the text "b". *)
Definition post_forbidden : Z -> string -> connection :=
  post_then_b (error_response 403 "denied").


Definition read_timeout : exn := mk_exn TimeoutException "read timeout".

Definition post_timeout_after_a : Z -> string -> connection :=
  post_then_b
    (ok_response [data_line (record_json (text_json "a") "")]
       (Some read_timeout)).



(** A thought, a text and a second thought. *)
Definition two_sections : list string :=
  [data_line (record_json thought_json "");
   data_line (record_json (text_json "a") "");
   data_line (record_json thought_json "")].

(** A clock that reads [k] seconds at the [k]-th call. *)
Definition ticking (k : nat) : reading := mk_reading false (N.of_nat k) 0.

(** U+00A0, the no-break space, in UTF-8. *)
Definition NBSP : string := String "194"%char (String "160"%char EmptyString).

(** The double 1700000000.001: 3565158400002097 * 2^-21. *)
Definition one_millisecond_past : reading :=
  mk_reading false 3565158400002097 21.

End Sample.

(** ** The list of models

    What [client.post(models_url, ...)] gives to [get_available_models]:
    an exception, or a response with its status, its text and the outcome
    of [response.json()]. *)
Record models_response : Type := mk_models_response {
  models_status : Z;
  models_text : string;
  models_json : exn + pyval
}.

Inductive models_post : Type :=
| PostRaised (e : exn)
| PostReturned (r : models_response).

(** How a call ends: with a value, with an exception of the transport, or
    with an error of a dynamically typed access. *)
Inductive outcome : Type :=
| Returned (v : pyval)
| Raised (e : exn)
| RaisedPy (e : pyerr).

(** [d.keys()]: every key once, in the order of its first binding. *)
Fixpoint keys (d : list (string * pyval)) : list string :=
  match d with
  | [] => []
  | (k, _) :: d' => k :: filter (fun k' => negb (k' =? k)%string) (keys d')
  end.

(** An entry of the 'data' list (lines 282-287). *)
Definition model_entry (model_id : string) : pyval :=
  PDict [("id", PStr model_id);
         ("object", PStr "model");
         ("created", PInt 1700000000);
         ("owned_by", PStr "google")].

(** The two handlers of [get_available_models] (lines 292-296) on an
    exception raised in its [try]. *)
Definition models_handler (timeout : Z) (e : exn) : outcome :=
  match exn_class_of e with
  | TimeoutException =>
      Raised (mk_exn HTTPError
                ("获取模型列表超时（超过 " ++ str_int timeout ++ " 秒）"))
  | _ => Raised e
  end.

Definition get_available_models (reply : models_post) (timeout : Z) : outcome :=
  match reply with
  | PostRaised e => models_handler timeout e
  | PostReturned response =>
      if negb (models_status response =? 200) then
        models_handler timeout
          (mk_exn HTTPError
             ("获取模型列表失败 (" ++ str_int (models_status response) ++ "): "
              ++ models_text response))
      else
        match models_json response with
        | inl e => models_handler timeout e
        | inr data =>
            match get data "models" (PDict []) with
            | Raise e => RaisedPy e
            | Ok (PDict models) =>
                Returned
                  (PDict [("object", PStr "list");
                          ("data", PList (map model_entry (keys models)))])
            | Ok _ => RaisedPy AttributeError
            end
        end
  end.

(** ** Further vocabulary *)

(** A line the record loop decodes or stops on: not empty and starting
    with the prefix. *)
Definition is_data_line (line : string) : bool :=
  negb (line =? "")%string && String.prefix "data: " line.

(** A line that carries the [[DONE]] payload. *)
Definition is_done_line (line : string) : bool :=
  is_data_line line && (strip (drop 6 line) =? "[DONE]")%string.

(** A line that leaves no trace: no data line, or a data line that is
    not the end of the stream and whose payload does not parse. *)
Definition ignored_line (json_loads : string -> option pyval) (line : string)
  : bool :=
  negb (is_data_line line)
  || (negb (is_done_line line)
      && match json_loads (drop 6 line) with None => true | Some _ => false end).

(** Phases that also remember a closing marker just yielded. *)
Inductive strict_phase : Type := SIdle | SOpened | SThinking | SClosed.

Definition strict_of (thinking : bool) : strict_phase :=
  if thinking then SThinking else SIdle.

Definition strict_step (p : strict_phase) (e : event) : option strict_phase :=
  match p, e with
  | SIdle, OpenMarker => Some SOpened
  | SIdle, Text _ => Some SIdle
  | SIdle, ToolCalls _ => Some SIdle
  | SOpened, Thinking _ => Some SThinking
  | SThinking, Thinking _ => Some SThinking
  | SThinking, CloseMarker => Some SClosed
  | SClosed, Text _ => Some SIdle
  | SClosed, ToolCalls _ => Some SIdle
  | _, _ => None
  end.

Fixpoint strict_run (p : strict_phase) (evs : list event) : option strict_phase :=
  match evs with
  | [] => Some p
  | e :: rest =>
      match strict_step p e with
      | Some p' => strict_run p' rest
      | None => None
      end
  end.

Definition follows (st : dstate) (evs : list event) (st' : dstate) : Prop :=
  strict_run (strict_of (thinking_started st)) evs
  = Some (strict_of (thinking_started st')).

Definition gen_follows {A} (m : gen A) : Prop :=
  forall st, match m st with (evs, st', _) => follows st evs st' end.

(** An event that ends a thinking section: a text or a batch of calls. *)
Definition is_answer (e : event) : bool :=
  match e with Text _ | ToolCalls _ => true | _ => false end.

(** A [ToolCalls] event with no call. *)
Definition is_empty_batch (e : event) : bool :=
  match e with ToolCalls [] => true | _ => false end.

(** The events of the attempts on [urls], the first with the index
    [endpoint_index], one after the other. *)
Fixpoint attempt_events (json_loads : string -> option pyval)
    (post : Z -> string -> connection) (endpoint_index : Z)
    (urls : list string) : list event :=
  match urls with
  | [] => []
  | api_url :: rest =>
      fst (_stream_generate_content_single json_loads post endpoint_index api_url)
      ++ attempt_events json_loads post (endpoint_index + 1) rest
  end.

(** How the attempt on the last of [urls] ended. *)
Fixpoint last_outcome (json_loads : string -> option pyval)
    (post : Z -> string -> connection) (endpoint_index : Z)
    (urls : list string) : option exn :=
  match urls with
  | [] => None
  | api_url :: rest =>
      match rest with
      | [] => snd (_stream_generate_content_single json_loads post
                     endpoint_index api_url)
      | _ :: _ => last_outcome json_loads post (endpoint_index + 1) rest
      end
  end.

(** How the attempts on all of [urls] but the last ended. *)
Fixpoint earlier_outcomes (json_loads : string -> option pyval)
    (post : Z -> string -> connection) (endpoint_index : Z)
    (urls : list string) : list (option exn) :=
  match urls with
  | [] => []
  | api_url :: rest =>
      match rest with
      | [] => []
      | _ :: _ =>
          snd (_stream_generate_content_single json_loads post
                 endpoint_index api_url)
          :: earlier_outcomes json_loads post (endpoint_index + 1) rest
      end
  end.

(** An attempt that ended with an exception the loop fails over on. *)
Definition failed_over (o : option exn) : Prop :=
  exists e, o = Some e /\ fails_over e = true.

(** The text of an [HTTPError] names one of the five statuses. *)
Definition names_retry_status (error_str : string) : bool :=
  contains "429" error_str || contains "500" error_str
  || contains "502" error_str || contains "503" error_str
  || contains "504" error_str.

(** The number of clock readings a call makes for what the caller left
    out. *)
Definition clock_reads (stream_id : option string) (created : option Z) : nat :=
  (match stream_id with
   | Some s => if (s =? "")%string then 1 else 0
   | None => 1
   end
   + match created with
     | Some c => if (c =? 0)%Z then 1 else 0
     | None => 1
     end)%nat.

(** ** Properties of the decoder *)

Arguments drop : simpl never.
Arguments strip : simpl never.

Ltac run_gen :=
  unfold bind, get_state, yield, set_thinking, set_tool_calls, ret, lift;
  simpl.


Lemma phase_run_app (p : phase) (l1 l2 : list event) :
  phase_run p (l1 ++ l2) =
  match phase_run p l1 with
  | Some p1 => phase_run p1 l2
  | None => None
  end.
Proof.
  revert p; induction l1 as [|e l1 IH]; intros p; simpl; [reflexivity|].
  destruct (phase_step p e); [apply IH | reflexivity].
Qed.

Lemma emitted_calls_app (l1 l2 : list event) :
  emitted_calls (l1 ++ l2) = emitted_calls l1 ++ emitted_calls l2.
Proof. unfold emitted_calls; apply flat_map_app. Qed.


Lemma keeps_refl (st : dstate) : keeps st [] st.
Proof.
  split; [reflexivity|]. exists []. unfold ledger; simpl.
  now rewrite app_nil_r.
Qed.

Lemma keeps_trans (st st1 st2 : dstate) (evs1 evs2 : list event) :
  keeps st evs1 st1 -> keeps st1 evs2 st2 -> keeps st (evs1 ++ evs2) st2.
Proof.
  intros [P1 [n1 L1]] [P2 [n2 L2]]; split.
  - rewrite phase_run_app, P1; exact P2.
  - exists (n1 ++ n2). unfold ledger in *.
    rewrite emitted_calls_app, <- app_assoc, L2, app_assoc, L1.
    now rewrite app_assoc.
Qed.


Lemma bind_keeps {A B} (m : gen A) (k : A -> gen B) :
  gen_keeps m -> (forall a, gen_keeps (k a)) -> gen_keeps (bind m k).
Proof.
  intros Hm Hk st; unfold bind.
  specialize (Hm st).
  destruct (m st) as [[evs st1] [a|e]]; [|exact Hm].
  specialize (Hk a st1).
  destruct (k a st1) as [[evs' st2] r].
  eapply keeps_trans; eassumption.
Qed.

Lemma lift_keeps {A} (r : result A) : gen_keeps (lift r).
Proof. intros st; apply keeps_refl. Qed.

Lemma ret_keeps {A} (a : A) : gen_keeps (ret a).
Proof. intros st; apply keeps_refl. Qed.

Lemma get_state_keeps : gen_keeps get_state.
Proof. intros st; apply keeps_refl. Qed.


Lemma keeps_append (th : bool) (calls : list pyval) (request : pyval) :
  keeps (mk_dstate th calls) [] (mk_dstate th (calls ++ [request])).
Proof.
  split; [reflexivity|]. exists [request]. reflexivity.
Qed.

Lemma process_part_keeps (part : pyval) : gen_keeps (process_part part).
Proof.
  intros [th calls].
  destruct part as [| b | z | f | s | l | d];
    try (apply keeps_refl).
  unfold process_part, get, contains_key, getitem; run_gen.
  destruct (is_True _).
  - destruct th; simpl; (split; [reflexivity|]); exists [];
      unfold ledger; simpl; now rewrite app_nil_r.
  - destruct (lookup "text" d); simpl.
    + destruct th; simpl; (split; [reflexivity|]); exists [];
        unfold ledger; simpl; now rewrite app_nil_r.
    + destruct (lookup "functionCall" d) as [fc|]; simpl;
        [|apply keeps_refl].
      destruct (tool_call_request fc) as [request|e]; simpl;
        [apply keeps_append | apply keeps_refl].
Qed.

Lemma for_each_keeps (body : pyval -> gen unit) (items : list pyval) :
  (forall x, gen_keeps (body x)) -> gen_keeps (for_each body items).
Proof.
  intros Hbody; induction items as [|x rest IH]; simpl.
  - apply ret_keeps.
  - apply bind_keeps; [apply Hbody | intros _; exact IH].
Qed.

Lemma finish_check_keeps (candidate : pyval) : gen_keeps (finish_check candidate).
Proof.
  intros [th calls]; unfold finish_check; run_gen.
  destruct (get candidate "finishReason" PNone) as [reason|e]; simpl;
    [|apply keeps_refl].
  destruct (truthy reason); simpl; [|apply keeps_refl].
  destruct calls as [|c calls]; simpl; [apply keeps_refl|].
  destruct th; simpl; (split; [reflexivity|]); exists [];
    unfold ledger; simpl; now rewrite !app_nil_r.
Qed.

Lemma process_data_keeps (data : pyval) : gen_keeps (process_data data).
Proof.
  unfold process_data.
  repeat (apply bind_keeps; [apply lift_keeps | intros ?]).
  destruct (negb _); [apply ret_keeps|].
  repeat (apply bind_keeps; [apply lift_keeps | intros ?]).
  apply bind_keeps; [apply for_each_keeps, process_part_keeps | intros _].
  apply finish_check_keeps.
Qed.

Section DecoderFacts.

Variable json_loads : string -> option pyval.

Lemma process_record_keeps (json_str : string) (st : dstate) :
  keeps st (fst (process_record json_loads json_str st))
           (snd (process_record json_loads json_str st)).
Proof.
  unfold process_record.
  destruct (json_loads json_str) as [data|]; simpl; [|apply keeps_refl].
  pose proof (process_data_keeps data st) as H.
  destruct (process_data data st) as [[evs st'] r]; exact H.
Qed.

Lemma sse_loop_keeps (lines : list string) (st : dstate) :
  keeps st (fst (fst (sse_loop json_loads lines st)))
           (snd (fst (sse_loop json_loads lines st))).
Proof.
  revert st; induction lines as [|line rest IH]; intros st; simpl.
  - apply keeps_refl.
  - destruct (_ || _); [apply IH|].
    destruct (_ =? _)%string; simpl; [apply keeps_refl|].
    pose proof (process_record_keeps (drop 6 line) st) as H1.
    destruct (process_record json_loads (drop 6 line) st) as [evs st1].
    specialize (IH st1).
    destruct (sse_loop json_loads rest st1) as [[evs' st2] broke]; simpl in *.
    eapply keeps_trans; eassumption.
Qed.

End DecoderFacts.


Lemma phase_run_count (evs : list event) (p p' : phase) :
  phase_run p evs = Some p' ->
  (count_open evs + phase_weight p = count_close evs + phase_weight p')%nat.
Proof.
  unfold count_open, count_close.
  revert p; induction evs as [|e evs IH]; intros p H; simpl in H.
  - injection H as <-; reflexivity.
  - destruct (phase_step p e) as [p1|] eqn:Hs; [|discriminate].
    specialize (IH _ H).
    destruct p, e; simpl in Hs; try discriminate;
      injection Hs as <-; simpl in *; lia.
Qed.

(** From right after an opening marker, the way back to [Idle] passes a
    thinking fragment and a closing marker. *)
Lemma just_opened_to_idle (l : list event) :
  phase_run JustOpened l = Some Idle ->
  In CloseMarker l /\ exists c, In (Thinking c) l.
Proof.
  destruct l as [|e l]; simpl; [discriminate|].
  destruct e; simpl; try discriminate.
  intros H; split; [right | exists content; now left].
  revert H; induction l as [|e l IH]; simpl; [discriminate|].
  destruct e; simpl; try discriminate.
  - intros _; now left.
  - intros H; right; auto.
Qed.

Lemma just_opened_thinking (l : list event) (p : phase) :
  phase_run JustOpened l = Some p -> p <> JustOpened ->
  exists c, In (Thinking c) l.
Proof.
  destruct l as [|e l]; simpl.
  - intros H; injection H as <-; congruence.
  - destruct e; simpl; try discriminate.
    intros _ _; exists content; now left.
Qed.

(** From [Idle], the way into a thinking section passes an opening marker
    and a thinking fragment. *)
Lemma idle_to_in_thought (l : list event) :
  phase_run Idle l = Some InThought ->
  In OpenMarker l /\ exists c, In (Thinking c) l.
Proof.
  induction l as [|e l IH]; simpl; [discriminate|].
  destruct e; simpl; try discriminate.
  - intros H; split; [now left|].
    destruct (just_opened_thinking l InThought H) as [c Hc]; [discriminate|].
    exists c; now right.
  - intros H; destruct (IH H) as [Ho [c Hc]]; split; [now right|].
    exists c; now right.
  - intros H; destruct (IH H) as [Ho [c Hc]]; split; [now right|].
    exists c; now right.
Qed.

Lemma between_opens (p p' : phase) (l1 l2 l3 : list event) :
  phase_run p (l1 ++ OpenMarker :: l2 ++ OpenMarker :: l3) = Some p' ->
  In CloseMarker l2 /\ exists c, In (Thinking c) l2.
Proof.
  rewrite phase_run_app.
  destruct (phase_run p l1) as [p1|]; [|discriminate]; simpl.
  destruct p1; simpl; try discriminate.
  rewrite phase_run_app.
  destruct (phase_run JustOpened l2) as [p2|] eqn:H2; [|discriminate]; simpl.
  destruct p2; simpl; try discriminate.
  intros _; now apply just_opened_to_idle.
Qed.

Lemma between_closes (p p' : phase) (l1 l2 l3 : list event) :
  phase_run p (l1 ++ CloseMarker :: l2 ++ CloseMarker :: l3) = Some p' ->
  In OpenMarker l2 /\ exists c, In (Thinking c) l2.
Proof.
  rewrite phase_run_app.
  destruct (phase_run p l1) as [p1|]; [|discriminate]; simpl.
  destruct p1; simpl; try discriminate.
  rewrite phase_run_app.
  destruct (phase_run Idle l2) as [p2|] eqn:H2; [|discriminate]; simpl.
  destruct p2; simpl; try discriminate.
  intros _; now apply idle_to_in_thought.
Qed.

Lemma phase_weight_of (b : bool) : phase_weight (phase_of b) = open_sections b.
Proof. now destruct b. Qed.

(** The events of a connection are those of the record loop on its
    lines, or none when the status is not 200 or no response came. *)
Lemma decode_connection_events (json_loads : string -> option pyval)
    (conn : connection) :
  fst (decode_connection json_loads conn) = []
  \/ exists r, conn = Opened r
       /\ fst (decode_connection json_loads conn)
          = fst (fst (sse_loop json_loads (aiter_lines r) initial_dstate)).
Proof.
  destruct conn as [e|r]; simpl; [now left|].
  destruct (status_code r =? 403).
  - left; now destruct (aread r).
  - destruct (negb _).
    + left; now destruct (aread r).
    + right; exists r; split; [reflexivity|].
      now destruct (sse_loop json_loads (aiter_lines r) initial_dstate)
        as [[evs st] broke].
Qed.

(** C4, as the code has it: over any lines, the opening markers the
    decoder yields are as many as the closing markers when the loop ends
    with [thinking_started] down, and one more when it ends with the flag
    up (no closing marker is yielded at the end of the stream or on the
    [[DONE]] payload); between two opening markers there is a closing marker
    and a thinking fragment, and between two closing markers an opening
    marker and a thinking fragment.  The events of a connection inherit the
    bracketing, with at most one section left open. *)
Theorem marker_bracketing (json_loads : string -> option pyval)
    (lines : list string) :
  let evs := fst (fst (sse_loop json_loads lines initial_dstate)) in
  let final := snd (fst (sse_loop json_loads lines initial_dstate)) in
  (count_open evs
   = count_close evs + open_sections (thinking_started final))%nat
  /\ (forall l1 l2 l3, evs = l1 ++ OpenMarker :: l2 ++ OpenMarker :: l3 ->
        In CloseMarker l2 /\ exists c, In (Thinking c) l2)
  /\ (forall l1 l2 l3, evs = l1 ++ CloseMarker :: l2 ++ CloseMarker :: l3 ->
        In OpenMarker l2 /\ exists c, In (Thinking c) l2)
  /\ (forall conn,
        let evs' := fst (decode_connection json_loads conn) in
        (count_close evs' <= count_open evs' <= count_close evs' + 1)%nat).
Proof.
  assert (K : forall ls,
             phase_run Idle (fst (fst (sse_loop json_loads ls initial_dstate)))
             = Some (phase_of (thinking_started
                       (snd (fst (sse_loop json_loads ls initial_dstate)))))).
  { intros ls; exact (proj1 (sse_loop_keeps json_loads ls initial_dstate)). }
  intros evs final; subst evs final.
  pose proof (K lines) as H.
  split; [|split; [|split]].
  - apply phase_run_count in H; rewrite phase_weight_of in H; simpl in H.
    lia.
  - intros l1 l2 l3 E; rewrite E in H; eapply between_opens; exact H.
  - intros l1 l2 l3 E; rewrite E in H; eapply between_closes; exact H.
  - intros conn evs'; subst evs'.
    destruct (decode_connection_events json_loads conn) as [E|[r [_ E]]];
      rewrite E; [cbn; lia|].
    pose proof (K (aiter_lines r)) as Hr.
    apply phase_run_count in Hr; rewrite phase_weight_of in Hr; simpl in Hr.
    set (b := thinking_started _) in Hr.
    destruct b; simpl in Hr; lia.
Qed.

(** A stream with two thinking sections, the second left open: the
    bracketing at work. *)
Lemma marker_bracketing_witness :
  fst (fst (sse_loop Sample.json_loads Sample.two_sections initial_dstate))
  = [] ++ OpenMarker
    :: [Thinking (PStr "hmm"); CloseMarker; Text (PStr "a")]
    ++ OpenMarker :: [Thinking (PStr "hmm")]
  /\ In CloseMarker [Thinking (PStr "hmm"); CloseMarker; Text (PStr "a")].
Proof.
  assert (E : fst (fst (sse_loop Sample.json_loads Sample.two_sections
                          initial_dstate))
              = [] ++ OpenMarker
                :: [Thinking (PStr "hmm"); CloseMarker; Text (PStr "a")]
                ++ OpenMarker :: [Thinking (PStr "hmm")])
    by (vm_compute; reflexivity).
  split; [exact E|].
  exact (proj1 (proj1 (proj2 (marker_bracketing Sample.json_loads
                                Sample.two_sections))
                  _ _ _ E)).
Defined.

(** C4 as stated fails: a stream whose only record is a thought part
    ends with one opening marker and no closing marker. *)
Lemma marker_pairing_unbalanced :
  fst (decode_connection Sample.json_loads
         (Sample.ok_response
            [Sample.data_line (Sample.record_json Sample.thought_json "")]
            None))
  = [OpenMarker; Thinking (PStr "hmm")]
  /\ count_open [OpenMarker; Thinking (PStr "hmm")]
     <> count_close [OpenMarker; Thinking (PStr "hmm")].
Proof.
  vm_compute; split; [reflexivity | discriminate].
Qed.

(** *** Tool calls *)

Lemma process_part_no_tool_calls (part : pyval) (st : dstate) :
  match process_part part st with
  | (evs, st', _) =>
      existsb is_tool_calls evs = false
      /\ exists new, tool_calls st' = tool_calls st ++ new
                     /\ (List.length new <= 1)%nat
  end.
Proof.
  destruct st as [th calls].
  assert (N : forall l : list pyval, exists new, l = l ++ new
                                       /\ (List.length new <= 1)%nat)
    by (intros l; exists []; rewrite app_nil_r; simpl; split; [reflexivity|lia]).
  destruct part as [| b | z | f | s | l | d]; try (split; [reflexivity|apply N]).
  unfold process_part, get, contains_key, getitem; run_gen.
  destruct (is_True _).
  - destruct th; simpl; (split; [reflexivity|apply N]).
  - destruct (lookup "text" d); simpl.
    + destruct th; simpl; (split; [reflexivity|apply N]).
    + destruct (lookup "functionCall" d) as [fc|]; simpl;
        [|split; [reflexivity|apply N]].
      destruct (tool_call_request fc) as [request|e]; simpl;
        (split; [reflexivity|]); [|apply N].
      exists [request]; simpl; split; [reflexivity|lia].
Qed.

Lemma finish_check_spec (candidate : pyval) (st : dstate) :
  match finish_check candidate st with
  | (evs, st', r) =>
      if completion_signal candidate && truthy (PList (tool_calls st))
      then evs = (if thinking_started st then [CloseMarker] else [])
                 ++ [ToolCalls (tool_calls st)]
           /\ st' = mk_dstate false [] /\ r = Ok tt
      else evs = [] /\ st' = st
  end.
Proof.
  destruct st as [th calls]; unfold finish_check, completion_signal, get, dict_get.
  destruct candidate as [| b | z | f | s | l | d]; run_gen; try (now split).
  destruct (truthy _); simpl; [|now split].
  destruct calls as [|c calls]; simpl; [now split|].
  destruct th; simpl; now repeat split.
Qed.

Lemma sse_loop_app (json_loads : string -> option pyval)
    (lines more : list string) (st : dstate) :
  sse_loop json_loads (lines ++ more) st =
  match sse_loop json_loads lines st with
  | (evs, st1, true) => (evs, st1, true)
  | (evs, st1, false) =>
      match sse_loop json_loads more st1 with
      | (evs', st2, broke) => (evs ++ evs', st2, broke)
      end
  end.
Proof.
  revert st; induction lines as [|line rest IH]; intros st; simpl.
  - now destruct (sse_loop json_loads more st) as [[evs' st2] broke].
  - destruct (_ || _); [apply IH|].
    destruct (_ =? _)%string; [reflexivity|].
    destruct (process_record json_loads (drop 6 line) st) as [evs st1].
    rewrite IH.
    destruct (sse_loop json_loads rest st1) as [[evs1 st2] [|]]; [reflexivity|].
    destruct (sse_loop json_loads more st2) as [[evs2 st3] broke].
    now rewrite app_assoc.
Qed.

Lemma for_each_no_tool_calls (items : list pyval) (st : dstate) :
  existsb is_tool_calls (fst (fst (for_each process_part items st))) = false.
Proof.
  revert st; induction items as [|x rest IH]; intros st; simpl; [reflexivity|].
  unfold bind.
  pose proof (process_part_no_tool_calls x st) as H.
  destruct (process_part x st) as [[evs st1] [[]|e]]; simpl; [|apply H].
  specialize (IH st1).
  destruct (for_each process_part rest st1) as [[evs' st2] r]; simpl in *.
  rewrite existsb_app, IH; destruct H as [-> _]; reflexivity.
Qed.

(** Within one record a [ToolCalls] event can only be the last event, and
    it comes with a completed record and an emptied accumulator. *)
Lemma process_data_tool_calls (data : pyval) (st : dstate) :
  match process_data data st with
  | (evs, st', r) =>
      existsb is_tool_calls evs = false
      \/ exists pre calls,
            evs = pre ++ [ToolCalls calls]
            /\ existsb is_tool_calls pre = false
            /\ calls <> [] /\ tool_calls st' = [] /\ r = Ok tt
  end.
Proof.
  unfold process_data, bind, lift, ret.
  destruct (get data "response" (PDict [])) as [response|e]; [|now left].
  destruct (get response "candidates" (PList [])) as [candidates|e]; [|now left].
  destruct (negb (truthy candidates)); [now left|].
  destruct (index0 candidates) as [candidate|e]; [|now left].
  destruct (get candidate "content" (PDict [])) as [content|e]; [|now left].
  destruct (get content "parts" (PList [])) as [parts|e]; [|now left].
  destruct (iter parts) as [items|e]; [|now left].
  simpl.
  pose proof (for_each_no_tool_calls items st) as F.
  destruct (for_each process_part items st) as [[evs st1] [[]|e]];
    simpl in *; [|now left].
  pose proof (finish_check_spec candidate st1) as C.
  destruct (finish_check candidate st1) as [[evs' st2] r].
  destruct (completion_signal candidate); simpl in C.
  - destruct (tool_calls st1) as [|c calls] eqn:T; simpl in C.
    + destruct C as [-> _]; left; now rewrite app_nil_r.
    + destruct C as [-> [-> ->]]; right.
      exists (evs ++ (if thinking_started st1 then [CloseMarker] else [])),
             (c :: calls).
      rewrite <- app_assoc; repeat split; try reflexivity; try discriminate.
      rewrite existsb_app, F; now destruct (thinking_started st1).
  - destruct C as [-> _]; left; now rewrite app_nil_r.
Qed.

Lemma sse_loop_cons (json_loads : string -> option pyval) (line : string)
    (rest : list string) (st : dstate) :
  sse_loop json_loads (line :: rest) st
  = if negb (is_data_line line) then sse_loop json_loads rest st
    else if is_done_line line then ([], st, true)
    else
      let '(evs, st1) := process_record json_loads (drop 6 line) st in
      let '(evs', st2, broke) := sse_loop json_loads rest st1 in
      (evs ++ evs', st2, broke).
Proof.
  simpl; unfold is_done_line, is_data_line.
  destruct (line =? "")%string; simpl; [reflexivity|].
  destruct (String.prefix "data: " line); reflexivity.
Qed.








(** On a dictionary the request is built from the defaults of the three
    lookups; building it fails only when 'args' is there and is not a
    dictionary. *)
Lemma tool_call_request_dict (fcd : list (string * pyval)) :
  tool_call_request (PDict fcd) =
  match get (dict_get fcd "args" (PDict [])) "query" (PStr "{}") with
  | Ok arguments =>
      Ok (PDict [("id", dict_get fcd "id" (PStr ""));
                 ("type", PStr "function");
                 ("function", PDict [("name", dict_get fcd "name" (PStr ""));
                                     ("arguments", arguments)])])
  | Raise e => Raise e
  end.
Proof. reflexivity. Qed.

(** C9: a part that is a dictionary, is not a thought, has no 'text' and
    has a 'functionCall', when it is decoded without an error, yields no
    event and appends one request.  The request has the 'id' and the
    'name' of the function call, each the empty string when the key is
    missing, and for 'arguments' the 'query' of its 'args', the string "{}"
    when 'args' or its 'query' is missing.  A function call that is a
    dictionary whose 'args', if any, is a dictionary is always decoded. *)
Theorem function_call_request (d : list (string * pyval)) (fc : pyval)
    (st : dstate) :
  is_True (dict_get d "thought" PNone) = false ->
  lookup "text" d = None ->
  lookup "functionCall" d = Some fc ->
  (forall evs st',
      process_part (PDict d) st = (evs, st', Ok tt) ->
      exists fcd request,
        fc = PDict fcd
        /\ evs = []
        /\ st' = mk_dstate (thinking_started st) (tool_calls st ++ [request])
        /\ request_id request = Some (dict_get fcd "id" (PStr ""))
        /\ request_name request = Some (dict_get fcd "name" (PStr ""))
        /\ (lookup "id" fcd = None -> request_id request = Some (PStr ""))
        /\ (lookup "name" fcd = None -> request_name request = Some (PStr ""))
        /\ (lookup "args" fcd = None ->
            request_arguments request = Some (PStr "{}"))
        /\ (forall a, lookup "args" fcd = Some (PDict a) ->
            request_arguments request = Some (dict_get a "query" (PStr "{}"))))
  /\ (forall fcd,
        fc = PDict fcd ->
        (forall x, lookup "args" fcd = Some x -> exists a, x = PDict a) ->
        exists request,
          process_part (PDict d) st
          = ([], mk_dstate (thinking_started st) (tool_calls st ++ [request]),
             Ok tt)).
Proof.
  intros Hthought Htext Hcall.
  assert (E : process_part (PDict d) st =
              match tool_call_request fc with
              | Ok request =>
                  ([], mk_dstate (thinking_started st)
                         (tool_calls st ++ [request]), Ok tt)
              | Raise e => ([], st, Raise e)
              end).
  { unfold process_part, get, contains_key, getitem; run_gen.
    unfold dict_get in Hthought; rewrite Hthought, Htext, Hcall; simpl.
    now destruct (tool_call_request fc). }
  split.
  - intros evs st' H; rewrite E in H.
    destruct fc as [| b | z | f | s | l | fcd]; try discriminate H.
    rewrite tool_call_request_dict in H.
    unfold dict_get in H at 1.
    destruct (lookup "args" fcd) as [args|] eqn:Hargs.
    + destruct args as [| b | z | f | s | l | a]; try discriminate H.
      simpl in H; injection H as <- <-.
      eexists fcd, _; repeat split; try reflexivity.
      * intros Hid; cbn; unfold dict_get; now rewrite Hid.
      * intros Hname; cbn; unfold dict_get; now rewrite Hname.
      * intros Hn; congruence.
      * intros a' Ha; rewrite Hargs in Ha; injection Ha as <-; reflexivity.
    + simpl in H; injection H as <- <-.
      eexists fcd, _; repeat split; try reflexivity.
      * intros Hid; cbn; unfold dict_get; now rewrite Hid.
      * intros Hname; cbn; unfold dict_get; now rewrite Hname.
      * intros a' Ha; congruence.
  - intros fcd -> Hargs; rewrite E, tool_call_request_dict.
    unfold dict_get at 1.
    destruct (lookup "args" fcd) as [args|] eqn:Ha.
    + destruct (Hargs args eq_refl) as [a ->]; simpl; eexists; reflexivity.
    + simpl; eexists; reflexivity.
Qed.

(** The part [{"functionCall": {"args": {}}}]: no id, no name, no query. *)
Lemma function_call_request_witness :
  exists request,
    process_part
      (PDict [("functionCall", PDict [("args", PDict [])])]) initial_dstate
    = ([], mk_dstate false [request], Ok tt)
    /\ request_id request = Some (PStr "")
    /\ request_name request = Some (PStr "")
    /\ request_arguments request = Some (PStr "{}").
Proof.
  pose proof (function_call_request
                [("functionCall", PDict [("args", PDict [])])]
                (PDict [("args", PDict [])]) initial_dstate
                eq_refl eq_refl eq_refl) as [H1 H2].
  destruct (H2 _ eq_refl) as [request Hrun].
  { intros x Hx; injection Hx as <-; now exists []. }
  exists request; split; [exact Hrun|].
  destruct (H1 _ _ Hrun)
    as [fcd [request' [Hfc [_ [Hst [_ [_ [Hid [Hname [_ Hq]]]]]]]]]].
  injection Hfc as <-.
  injection Hst as <-.
  repeat split; [apply Hid | apply Hname | apply (Hq [])]; reflexivity.
Defined.

(** ** Properties of the failover loop *)

Section FailoverFacts.

Variable json_loads : string -> option pyval.
Variable post : Z -> string -> connection.
Variable timeout : Z.

Local Abbreviation single := (_stream_generate_content_single json_loads post).
Local Abbreviation loop := (try_endpoints json_loads post timeout).

Lemma index_below_last (n endpoint_index : Z) (rest : list string) :
  n = endpoint_index + 1 + Z.of_nat (List.length rest) ->
  (endpoint_index <? n - 1) = remains rest.
Proof.
  intros ->; destruct rest as [|u rest]; simpl List.length; simpl remains.
  - apply Z.ltb_ge; lia.
  - apply Z.ltb_lt; lia.
Qed.

(** An attempt that ends without an exception ends the run. *)
Lemma try_endpoints_return (n endpoint_index : Z) (api_url : string)
    (rest : list string) (last_error : option exn) (chunks : list event) :
  single endpoint_index api_url = (chunks, None) ->
  loop n endpoint_index (api_url :: rest) last_error
  = mk_run [api_url] chunks None.
Proof. intros H; simpl; now rewrite H. Qed.

(** An attempt that ends with the exception [e] either hands over to the
    next endpoint or ends the run; the events already yielded play no
    part in the choice. *)
Lemma try_endpoints_raise (n endpoint_index : Z) (api_url : string)
    (rest : list string) (last_error : option exn) (chunks : list event)
    (e : exn) :
  single endpoint_index api_url = (chunks, Some e) ->
  n = endpoint_index + 1 + Z.of_nat (List.length rest) ->
  loop n endpoint_index (api_url :: rest) last_error
  = if fails_over e && remains rest
    then and_then api_url chunks
           (loop n (endpoint_index + 1) rest (Some (surfaced timeout e)))
    else mk_run [api_url] chunks (Some (surfaced timeout e)).
Proof.
  intros H Hn; simpl; rewrite H.
  rewrite (index_below_last _ _ _ Hn).
  unfold fails_over, surfaced.
  destruct (exn_class_of e); simpl; try reflexivity;
    destruct (remains rest); rewrite ?andb_false_r; reflexivity.
Qed.

Lemma attempts_and_then (api_url : string) (chunks : list event) (r : run) :
  attempts (and_then api_url chunks r) = api_url :: attempts r.
Proof. reflexivity. Qed.

Lemma yielded_and_then (api_url : string) (chunks : list event) (r : run) :
  yielded (and_then api_url chunks r) = chunks ++ yielded r.
Proof. reflexivity. Qed.

(** A run over a non-empty list starts with a post to its first URL. *)
Lemma attempts_head (n endpoint_index : Z) (api_url : string)
    (rest : list string) (last_error : option exn) :
  exists more,
    attempts (loop n endpoint_index (api_url :: rest) last_error)
    = api_url :: more.
Proof.
  simpl.
  destruct (single endpoint_index api_url) as [chunks [e|]];
    [|now exists []].
  destruct (exn_class_of e);
    repeat match goal with
           | |- context [if ?b then _ else _] => destruct b
           end; simpl; eexists; reflexivity.
Qed.

Lemma forbidden_raises (endpoint_index : Z) (api_url : string) (r : response)
    (error_text : string) :
  post endpoint_index api_url = Opened r ->
  status_code r = 403 ->
  aread r = inr error_text ->
  single endpoint_index api_url = ([], Some (forbidden_error error_text)).
Proof.
  intros Hp Hs Ha; unfold _stream_generate_content_single, decode_connection.
  now rewrite Hp, Hs, Ha.
Qed.

Lemma status_raises (endpoint_index : Z) (api_url : string) (r : response)
    (error_text : string) :
  post endpoint_index api_url = Opened r ->
  status_code r <> 403 -> status_code r <> 200 ->
  aread r = inr error_text ->
  single endpoint_index api_url
  = ([], Some (status_error (status_code r) error_text)).
Proof.
  intros Hp H403 H200 Ha; unfold _stream_generate_content_single, decode_connection.
  rewrite Hp, Ha.
  apply Z.eqb_neq in H403, H200; now rewrite H403, H200.
Qed.

(** What the loop does with the [ValueError] that status 403 raises: it
    is handled by the clause for any other exception.  When an endpoint
    is left, the loop goes on with it, and the run posts to it next; the
    error reaches the caller only when the endpoint that answered 403 is
    the last one.  With a backup URL configured that is not blank, a 403
    from the primary endpoint is followed by a post to the backup. *)
Theorem forbidden_fails_over (n endpoint_index : Z) (api_url : string)
    (rest : list string) (last_error : option exn) (r : response)
    (error_text : string) :
  post endpoint_index api_url = Opened r ->
  status_code r = 403 ->
  aread r = inr error_text ->
  n = endpoint_index + 1 + Z.of_nat (List.length rest) ->
  loop n endpoint_index (api_url :: rest) last_error
  = match rest with
    | [] => mk_run [api_url] [] (Some (forbidden_error error_text))
    | _ :: _ =>
        and_then api_url []
          (loop n (endpoint_index + 1) rest (Some (forbidden_error error_text)))
    end
  /\ (forall next rest', rest = next :: rest' ->
        exists more,
          attempts (loop n endpoint_index (api_url :: rest) last_error)
          = api_url :: next :: more)
  /\ (forall backup_url,
        endpoint_index = 0 -> last_error = None ->
        rest = [backup_url] -> strip backup_url <> ""%string ->
        stream_generate_content json_loads post timeout api_url (Some backup_url)
        = and_then api_url []
            (loop 2 1 [backup_url] (Some (forbidden_error error_text)))).
Proof.
  intros Hp Hs Ha Hn.
  pose proof (forbidden_raises _ _ _ _ Hp Hs Ha) as Hraise.
  pose proof (try_endpoints_raise n _ _ rest last_error _ _ Hraise Hn) as Hrun.
  assert (Hgo : loop n endpoint_index (api_url :: rest) last_error
                = match rest with
                  | [] => mk_run [api_url] [] (Some (forbidden_error error_text))
                  | _ :: _ =>
                      and_then api_url []
                        (loop n (endpoint_index + 1) rest
                           (Some (forbidden_error error_text)))
                  end)
    by (rewrite Hrun; now destruct rest).
  split; [exact Hgo | split].
  - intros next rest' ->; rewrite Hgo.
    destruct (attempts_head n (endpoint_index + 1) next rest'
                (Some (forbidden_error error_text))) as [more Hmore].
    exists more; now rewrite attempts_and_then, Hmore.
  - intros backup_url -> -> -> Hb.
    unfold stream_generate_content, endpoints_of.
    assert (Hne : (backup_url =? "")%string = false).
    { apply String.eqb_neq; intros ->; now apply Hb. }
    apply String.eqb_neq in Hb; rewrite Hne, Hb; simpl negb; simpl andb.
    simpl in Hn; subst n; exact Hgo.
Qed.

(** C2, as the code has it: the loop has no commit point.  An exception
    that ends an attempt after events were yielded is handled as one that
    comes before any event.  When it is one the loop fails over on (a
    timeout, an [HTTPError] whose text holds 429, 500, 502, 503 or 504, or
    any other [Exception]) and an endpoint is left, the next endpoint is
    posted to and its events follow those already yielded.  Otherwise the
    run ends with the error, after the events already yielded. *)
Theorem error_after_events (n endpoint_index : Z) (api_url : string)
    (rest : list string) (last_error : option exn) (chunks : list event)
    (e : exn) :
  single endpoint_index api_url = (chunks, Some e) ->
  chunks <> [] ->
  n = endpoint_index + 1 + Z.of_nat (List.length rest) ->
  let r := loop n endpoint_index (api_url :: rest) last_error in
  (fails_over e = true ->
   forall next rest', rest = next :: rest' ->
     let r' := loop n (endpoint_index + 1) rest (Some (surfaced timeout e)) in
     r = and_then api_url chunks r'
     /\ yielded r = chunks ++ yielded r'
     /\ exists more, attempts r = api_url :: next :: more)
  /\ (fails_over e = false \/ rest = [] ->
      r = mk_run [api_url] chunks (Some (surfaced timeout e))).
Proof.
  intros Hraise _ Hn r; subst r.
  rewrite (try_endpoints_raise n _ _ rest last_error _ _ Hraise Hn).
  split.
  - intros -> next rest' ->; simpl andb; cbv iota.
    split; [reflexivity | split; [apply yielded_and_then|]].
    destruct (attempts_head n (endpoint_index + 1) next rest'
                (Some (surfaced timeout e))) as [more Hmore].
    exists more; now rewrite attempts_and_then, Hmore.
  - intros [-> | ->]; [reflexivity|].
    now rewrite andb_false_r.
Qed.


End FailoverFacts.

(** A 403 from the primary endpoint, with a backup configured. *)
Lemma forbidden_fails_over_witness :
  try_endpoints Sample.json_loads Sample.post_forbidden 120
    2 0 [Sample.primary; Sample.backup] None
  = and_then Sample.primary []
      (try_endpoints Sample.json_loads Sample.post_forbidden 120
         2 1 [Sample.backup] (Some (forbidden_error "denied"))).
Proof.
  exact (proj1 (forbidden_fails_over Sample.json_loads Sample.post_forbidden
                  120 2 0 Sample.primary [Sample.backup] None
                  (mk_response 403 (inr "denied") [] None) "denied"
                  eq_refl eq_refl eq_refl eq_refl)).
Defined.

(** C1, at the input where the code departs from it: the primary
    endpoint answers 403 with the body "denied" and a backup is
    configured.  The attempt ends with the [ValueError] of the 403, and the
    run, instead of raising it, posts to the backup endpoint, yields its
    text and returns. *)
Lemma forbidden_reaches_backup :
  _stream_generate_content_single Sample.json_loads Sample.post_forbidden
    0 Sample.primary
  = ([], Some (forbidden_error "denied"))
  /\ stream_generate_content Sample.json_loads Sample.post_forbidden 120
       Sample.primary (Some Sample.backup)
     = mk_run [Sample.primary; Sample.backup] [Text (PStr "b")] None.
Proof. vm_compute; split; reflexivity. Qed.

(** A read timeout after the first text of the primary endpoint, with a
    backup configured. *)
Lemma error_after_events_witness :
  try_endpoints Sample.json_loads Sample.post_timeout_after_a 120
    2 0 [Sample.primary; Sample.backup] None
  = and_then Sample.primary [Text (PStr "a")]
      (try_endpoints Sample.json_loads Sample.post_timeout_after_a 120
         2 1 [Sample.backup] (Some (surfaced 120 Sample.read_timeout))).
Proof.
  assert (Hne : [Text (PStr "a")] <> []) by discriminate.
  exact (proj1 (proj1 (error_after_events Sample.json_loads
                         Sample.post_timeout_after_a 120
                         2 0 Sample.primary [Sample.backup] None
                         [Text (PStr "a")] Sample.read_timeout
                         eq_refl Hne eq_refl)
                  eq_refl Sample.backup [] eq_refl)).
Defined.

(** C2 as stated fails: the primary endpoint yields the text "a" and
    then times out; the run posts to the backup endpoint, yields its text
    "b" after "a", and returns without an error. *)
Lemma failover_after_first_event :
  _stream_generate_content_single Sample.json_loads
    Sample.post_timeout_after_a 0 Sample.primary
  = ([Text (PStr "a")], Some Sample.read_timeout)
  /\ stream_generate_content Sample.json_loads Sample.post_timeout_after_a 120
       Sample.primary (Some Sample.backup)
     = mk_run [Sample.primary; Sample.backup]
         [Text (PStr "a"); Text (PStr "b")] None.
Proof. vm_compute; split; reflexivity. Qed.



(** ** Properties of the encoder *)

Section EncoderFacts.

Variable json_dumps : pyval -> string.
Variable time_time : nat -> reading.

Local Abbreviation convert := (convert_sse_to_openai_format json_dumps time_time).

(** The string returned is the framed dump of the chunk, or empty when
    no chunk is built. *)
Lemma convert_frames_chunk (sse_chunk : list (string * pyval)) (model : string)
    (stream_id : option string) (created : option Z) (k : nat) :
  fst (convert sse_chunk model stream_id created k)
  = match fst (chunk_of_event time_time sse_chunk model stream_id created k) with
    | Ok (Some chunk) => Ok (data_record (json_dumps chunk))
    | Ok None => Ok ""%string
    | Raise e => Raise e
    end.
Proof.
  unfold convert_sse_to_openai_format.
  now destruct (chunk_of_event time_time sse_chunk model stream_id created k)
    as [[[chunk|]|e] k'].
Qed.

Lemma chunk_of_event_type (sse_chunk : list (string * pyval)) (model : string)
    (stream_id : option string) (created : option Z) (k : nat) :
  let chunk_type := dict_get sse_chunk "type" PNone in
  eq_str chunk_type "thinking" = true
  \/ (eq_str chunk_type "tool_calls" = false /\ eq_str chunk_type "text" = false) ->
  fst (chunk_of_event time_time sse_chunk model stream_id created k) = Ok None.
Proof.
  intros chunk_type H; unfold chunk_of_event.
  destruct (stream_id_or_default time_time stream_id k) as [sid k1].
  destruct (created_or_default time_time created k1) as [c k2].
  fold chunk_type.
  destruct (eq_str chunk_type "thinking"); [reflexivity|].
  destruct H as [H | [H1 H2]]; [discriminate|].
  now rewrite H1, H2.
Qed.

(** C6: an event whose type is 'thinking' gives the empty string, what
    else it holds and whatever the model, the stream id, the timestamp and
    the clock; so do the opening marker, the closing marker and every
    thinking fragment of the decoder. *)
Theorem thinking_filtered (sse_chunk : list (string * pyval)) (model : string)
    (stream_id : option string) (created : option Z) (k : nat) :
  (eq_str (dict_get sse_chunk "type" PNone) "thinking" = true ->
   fst (convert sse_chunk model stream_id created k) = Ok ""%string)
  /\ (forall e, is_thinking_event e = true ->
        fst (convert (event_dict e) model stream_id created k) = Ok ""%string).
Proof.
  split.
  - intros H; rewrite convert_frames_chunk, chunk_of_event_type; auto.
  - intros e He; rewrite convert_frames_chunk, chunk_of_event_type;
      [reflexivity|].
    left; now destruct e.
Qed.

(** C10: an event whose type is none of 'text', 'thinking' and
    'tool_calls', or that has no type, gives the empty string and no
    error. *)
Theorem unknown_type_ignored (sse_chunk : list (string * pyval)) (model : string)
    (stream_id : option string) (created : option Z) (k : nat) :
  (eq_str (dict_get sse_chunk "type" PNone) "text" = false ->
   eq_str (dict_get sse_chunk "type" PNone) "thinking" = false ->
   eq_str (dict_get sse_chunk "type" PNone) "tool_calls" = false ->
   fst (convert sse_chunk model stream_id created k) = Ok ""%string)
  /\ (lookup "type" sse_chunk = None ->
      fst (convert sse_chunk model stream_id created k) = Ok ""%string).
Proof.
  split.
  - intros H1 H2 H3; rewrite convert_frames_chunk, chunk_of_event_type; auto.
  - intros H; rewrite convert_frames_chunk, chunk_of_event_type;
      [reflexivity|].
    right; unfold dict_get; now rewrite H.
Qed.

Lemma append_assoc (a b c : string) : ((a ++ b) ++ c = a ++ (b ++ c))%string.
Proof. induction a as [|x a IH]; simpl; [reflexivity | now rewrite IH]. Qed.

(** C7: the string of [generate_finish_chunk] is the framed dump of a
    chunk whose only choice has an empty 'delta' and the 'finish_reason'
    "tool_calls" when [has_tool_calls] is true and "stop" when it is false,
    followed by the framed [[DONE]] payload. *)
Theorem finish_chunk_shape (model : string) (has_tool_calls : bool)
    (stream_id : option string) (created : option Z) (k : nat) :
  exists chunk choice,
    fst (generate_finish_chunk json_dumps time_time model has_tool_calls
           stream_id created k)
    = (data_record (json_dumps chunk) ++ data_record "[DONE]")%string
    /\ choice0 chunk = Some choice
    /\ field "delta" choice = Some (PDict [])
    /\ field "finish_reason" choice
       = Some (PStr (if has_tool_calls then "tool_calls" else "stop"))
    /\ field "model" chunk = Some (PStr model)
    /\ field "object" chunk = Some (PStr "chat.completion.chunk").
Proof.
  unfold generate_finish_chunk, finish_chunk.
  destruct (stream_id_or_default time_time stream_id k) as [sid k1].
  destruct (created_or_default time_time created k1) as [c k2].
  eexists (completion_chunk sid c model [] _), _; simpl fst; split.
  - unfold data_record; now rewrite !append_assoc.
  - repeat split.
Qed.

(** C8, as the code has it: there is no session; each call fills in
    what the caller left out from the clock at that call.  A chunk, the
    terminal one included, carries the caller's stream id when it is
    given and not empty, and otherwise "chatcmpl-" and the milliseconds
    of the clock at that call, the product by 1000 being the one of
    doubles; it carries the caller's timestamp when it is given and not
    zero, and otherwise the seconds of the next value the call reads from
    the clock.  So two calls that are given neither carry the same id
    only when the clock gives them the same milliseconds. *)
Theorem chunk_metadata (sse_chunk : list (string * pyval)) (model : string)
    (has_tool_calls : bool) (stream_id : option string) (created : option Z)
    (k : nat) :
  let id :=
    match stream_id with
    | Some s => if (s =? "")%string then clock_id time_time k else s
    | None => clock_id time_time k
    end in
  let k1 :=
    match stream_id with
    | Some s => if (s =? "")%string then S k else k
    | None => S k
    end in
  let at_ :=
    match created with
    | Some c => if c =? 0 then clock_seconds time_time k1 else c
    | None => clock_seconds time_time k1
    end in
  (forall chunk,
      fst (chunk_of_event time_time sse_chunk model stream_id created k)
      = Ok (Some chunk) ->
      field "id" chunk = Some (PStr id)
      /\ field "created" chunk = Some (PInt at_))
  /\ (let chunk := fst (finish_chunk time_time model has_tool_calls
                          stream_id created k) in
      field "id" chunk = Some (PStr id)
      /\ field "created" chunk = Some (PInt at_)).
Proof.
  intros id k1 at_.
  assert (Hid : stream_id_or_default time_time stream_id k = (id, k1)).
  { subst id k1; unfold stream_id_or_default, now, clock_id.
    destruct stream_id as [s|]; [|reflexivity].
    now destruct (s =? "")%string. }
  assert (Hat : created_or_default time_time created k1
                = (at_, snd (created_or_default time_time created k1))).
  { subst at_; unfold created_or_default, now, clock_seconds.
    destruct created as [c|]; [|reflexivity].
    now destruct (c =? 0). }
  unfold chunk_of_event, finish_chunk; rewrite Hid, Hat.
  split; [|now split].
  intros chunk H.
  destruct (eq_str _ "thinking"); [discriminate|].
  destruct (eq_str _ "tool_calls").
  - destruct (lookup "tool_calls" sse_chunk); [|discriminate].
    injection H as <-; now split.
  - destruct (eq_str _ "text"); [|discriminate].
    injection H as <-; now split.
Qed.

End EncoderFacts.

(** The opening marker of the decoder is dropped by the encoder. *)
Lemma thinking_filtered_witness :
  fst (convert_sse_to_openai_format (fun _ => "{}"%string) Sample.ticking
         (event_dict OpenMarker) "m" None None 0%nat)
  = Ok ""%string.
Proof.
  exact (proj1 (thinking_filtered (fun _ => "{}"%string) Sample.ticking
                  (event_dict OpenMarker) "m" None None 0%nat)
           eq_refl).
Defined.

(** An event of the type 'usage' is dropped by the encoder. *)
Lemma unknown_type_ignored_witness :
  fst (convert_sse_to_openai_format (fun _ => "{}"%string) Sample.ticking
         [("type", PStr "usage"); ("content", PStr "x")] "m" None None 0%nat)
  = Ok ""%string.
Proof.
  exact (proj1 (unknown_type_ignored (fun _ => "{}"%string) Sample.ticking
                  [("type", PStr "usage"); ("content", PStr "x")]
                  "m" None None 0%nat)
           eq_refl eq_refl eq_refl).
Defined.

(** A terminal chunk for which the caller gives the timestamp and not
    the stream id, when the clock reads 1700000000.001. *)
Lemma chunk_metadata_witness :
  field "id" (fst (finish_chunk (fun _ => Sample.one_millisecond_past) "m"
                     false None (Some 1700000000) 0%nat))
  = Some (PStr "chatcmpl-1700000000001")
  /\ field "created" (fst (finish_chunk (fun _ => Sample.one_millisecond_past)
                             "m" false None (Some 1700000000) 0%nat))
     = Some (PInt 1700000000).
Proof.
  exact (proj2 (chunk_metadata (fun _ => Sample.one_millisecond_past)
                  (event_dict (Text (PStr "a"))) "m" false
                  None (Some 1700000000) 0%nat)).
Defined.

(** C8 as stated fails: with no stream id and no timestamp from the
    caller, a text chunk encoded when the clock reads 1 s and the terminal
    chunk encoded when it reads 3 s carry different ids and different
    timestamps. *)
Lemma default_metadata_changes :
  chunk_of_event Sample.ticking (event_dict (Text (PStr "a"))) "m"
    None None 1%nat
  = (Ok (Some (completion_chunk "chatcmpl-1000" 2 "m"
                 [("content", PStr "a")] PNone)), 3%nat)
  /\ finish_chunk Sample.ticking "m" false None None 3%nat
     = (completion_chunk "chatcmpl-3000" 4 "m" [] (PStr "stop"), 5%nat).
Proof. vm_compute; split; reflexivity. Qed.

(** ** More on the record loop *)

Section RecordLoopFacts.

Variable json_loads : string -> option pyval.

(** X1: empty lines, lines without the 'data: ' prefix and data lines
    whose payload [json.loads] rejects leave no trace: the loop yields
    the same events, ends in the same state and stops at the same place
    as on the lines without them. *)
Theorem ignored_lines_leave_no_trace (lines : list string) (st : dstate) :
  sse_loop json_loads lines st
  = sse_loop json_loads
      (filter (fun line => negb (ignored_line json_loads line)) lines) st.
Proof.
  revert st; induction lines as [|line rest IH]; intros st; [reflexivity|].
  rewrite sse_loop_cons; cbn [filter].
  destruct (is_data_line line) eqn:Hdata; cbn [negb].
  - destruct (is_done_line line) eqn:Hdone.
    + assert (Hig : ignored_line json_loads line = false)
        by (unfold ignored_line; now rewrite Hdata, Hdone).
      rewrite Hig; cbn [negb].
      now rewrite sse_loop_cons, Hdata, Hdone.
    + unfold process_record.
      destruct (json_loads (drop 6 line)) as [data|] eqn:Hload.
      * assert (Hig : ignored_line json_loads line = false)
          by (unfold ignored_line; now rewrite Hdata, Hdone, Hload).
        rewrite Hig; cbn [negb].
        rewrite sse_loop_cons, Hdata, Hdone; cbn [negb].
        unfold process_record; rewrite Hload.
        destruct (fst (process_data data st)) as [evs st1].
        now rewrite <- IH.
      * assert (Hig : ignored_line json_loads line = true)
          by (unfold ignored_line; now rewrite Hdata, Hdone, Hload).
        rewrite Hig; cbn [negb].
        rewrite <- IH.
        now destruct (sse_loop json_loads rest st) as [[evs' st2] broke].
  - assert (Hig : ignored_line json_loads line = true)
      by (unfold ignored_line; now rewrite Hdata).
    rewrite Hig; cbn [negb]; apply IH.
Qed.

(** X2: a data line whose payload, stripped, is [[DONE]] ends the
    decoding: whatever follows it is not read, and the events and the
    state are those of the lines before it.  On a connection with status
    200 the generator then returns, even when the transport would raise
    after the lines delivered. *)
Theorem done_line_ends_decoding (pre post : list string) (line : string)
    (st : dstate) :
  is_done_line line = true ->
  sse_loop json_loads (pre ++ line :: post) st
  = (fst (fst (sse_loop json_loads pre st)),
     snd (fst (sse_loop json_loads pre st)), true)
  /\ (forall r,
        status_code r = 200 -> aiter_lines r = pre ++ line :: post ->
        decode_connection json_loads (Opened r)
        = (fst (fst (sse_loop json_loads pre initial_dstate)), None)).
Proof.
  intros Hdone.
  assert (Hdata : is_data_line line = true)
    by (unfold is_done_line in Hdone; now apply andb_prop in Hdone).
  assert (E : forall st0,
             sse_loop json_loads (pre ++ line :: post) st0
             = (fst (fst (sse_loop json_loads pre st0)),
                snd (fst (sse_loop json_loads pre st0)), true)).
  { intros st0; rewrite sse_loop_app.
    destruct (sse_loop json_loads pre st0) as [[evs st1] [|]]; [reflexivity|].
    rewrite sse_loop_cons, Hdata, Hdone; simpl. now rewrite app_nil_r. }
  split; [apply E|].
  intros r Hs Hl; unfold decode_connection.
  rewrite Hs, Hl, E; reflexivity.
Qed.

Lemma no_batch_no_empty_batch (evs : list event) :
  existsb is_tool_calls evs = false -> existsb is_empty_batch evs = false.
Proof.
  induction evs as [|e evs IH]; simpl; [reflexivity|].
  intros H; apply orb_false_elim in H; destruct H as [He Hevs].
  rewrite (IH Hevs); destruct e; try reflexivity; discriminate.
Qed.

Lemma process_record_no_empty_batch (json_str : string) (st : dstate) :
  existsb is_empty_batch (fst (process_record json_loads json_str st)) = false.
Proof.
  unfold process_record.
  destruct (json_loads json_str) as [data|]; [|reflexivity].
  pose proof (process_data_tool_calls data st) as H.
  destruct (process_data data st) as [[evs st'] r]; simpl.
  destruct H as [H | [pre [calls [-> [Hpre [Hne _]]]]]].
  - now apply no_batch_no_empty_batch.
  - rewrite existsb_app, (no_batch_no_empty_batch _ Hpre); simpl.
    destruct calls; [congruence | reflexivity].
Qed.

(** X3: no [ToolCalls] event of the decoder is empty, whatever the lines
    and the state the loop starts from. *)
Theorem tool_calls_never_empty (lines : list string) (st : dstate) :
  existsb is_empty_batch (fst (fst (sse_loop json_loads lines st))) = false.
Proof.
  revert st; induction lines as [|line rest IH]; intros st; [reflexivity|].
  rewrite sse_loop_cons.
  destruct (negb (is_data_line line)); [apply IH|].
  destruct (is_done_line line); [reflexivity|].
  pose proof (process_record_no_empty_batch (drop 6 line) st) as H.
  destruct (process_record json_loads (drop 6 line) st) as [evs st1].
  specialize (IH st1).
  destruct (sse_loop json_loads rest st1) as [[evs' st2] broke]; simpl in *.
  now rewrite existsb_app, H, IH.
Qed.

End RecordLoopFacts.

(** A [[DONE]] line padded with a no-break space, between two records:
    the second is not decoded. *)
Lemma done_line_ends_decoding_witness :
  sse_loop Sample.json_loads
    ([Sample.data_line (Sample.record_json (Sample.text_json "a") "")]
     ++ ("data: [DONE]" ++ Sample.NBSP)%string
     :: [Sample.data_line (Sample.record_json (Sample.text_json "b") "")])
    initial_dstate
  = ([Text (PStr "a")], initial_dstate, true).
Proof.
  exact (proj1 (done_line_ends_decoding Sample.json_loads
                  [Sample.data_line (Sample.record_json (Sample.text_json "a") "")]
                  [Sample.data_line (Sample.record_json (Sample.text_json "b") "")]
                  ("data: [DONE]" ++ Sample.NBSP)%string initial_dstate
                  eq_refl)).
Defined.

(** ** Markers and their neighbours *)

Lemma strict_run_app (p : strict_phase) (l1 l2 : list event) :
  strict_run p (l1 ++ l2) =
  match strict_run p l1 with
  | Some p1 => strict_run p1 l2
  | None => None
  end.
Proof.
  revert p; induction l1 as [|e l1 IH]; intros p; simpl; [reflexivity|].
  destruct (strict_step p e); [apply IH | reflexivity].
Qed.

Lemma follows_refl (st : dstate) : follows st [] st.
Proof. reflexivity. Qed.

Lemma follows_trans (st st1 st2 : dstate) (evs1 evs2 : list event) :
  follows st evs1 st1 -> follows st1 evs2 st2 -> follows st (evs1 ++ evs2) st2.
Proof.
  unfold follows; intros H1 H2; now rewrite strict_run_app, H1.
Qed.

Lemma bind_follows {A B} (m : gen A) (k : A -> gen B) :
  gen_follows m -> (forall a, gen_follows (k a)) -> gen_follows (bind m k).
Proof.
  intros Hm Hk st; unfold bind.
  specialize (Hm st).
  destruct (m st) as [[evs st1] [a|e]]; [|exact Hm].
  specialize (Hk a st1).
  destruct (k a st1) as [[evs' st2] r].
  eapply follows_trans; eassumption.
Qed.

Lemma lift_follows {A} (r : result A) : gen_follows (lift r).
Proof. intros st; apply follows_refl. Qed.

Lemma process_part_follows (part : pyval) : gen_follows (process_part part).
Proof.
  intros [th calls].
  destruct part as [| b | z | f | s | l | d]; try (apply follows_refl).
  unfold process_part, get, contains_key, getitem; run_gen.
  destruct (is_True _).
  - destruct th; reflexivity.
  - destruct (lookup "text" d); simpl.
    + destruct th; reflexivity.
    + destruct (lookup "functionCall" d) as [fc|]; simpl; [|reflexivity].
      destruct (tool_call_request fc) as [request|e]; reflexivity.
Qed.

Lemma for_each_follows (items : list pyval) :
  gen_follows (for_each process_part items).
Proof.
  induction items as [|x rest IH]; simpl.
  - intros st; apply follows_refl.
  - apply bind_follows; [apply process_part_follows | intros _; exact IH].
Qed.

Lemma finish_check_follows (candidate : pyval) :
  gen_follows (finish_check candidate).
Proof.
  intros [th calls]; unfold finish_check; run_gen.
  destruct (get candidate "finishReason" PNone) as [reason|e]; simpl;
    [|reflexivity].
  destruct (truthy reason); simpl; [|reflexivity].
  destruct calls as [|c calls]; simpl; [reflexivity|].
  destruct th; reflexivity.
Qed.

Lemma process_data_follows (data : pyval) : gen_follows (process_data data).
Proof.
  unfold process_data.
  repeat (apply bind_follows; [apply lift_follows | intros ?]).
  destruct (negb _); [intros st; apply follows_refl|].
  repeat (apply bind_follows; [apply lift_follows | intros ?]).
  apply bind_follows; [apply for_each_follows | intros _].
  apply finish_check_follows.
Qed.

Lemma sse_loop_follows (json_loads : string -> option pyval)
    (lines : list string) (st : dstate) :
  follows st (fst (fst (sse_loop json_loads lines st)))
             (snd (fst (sse_loop json_loads lines st))).
Proof.
  revert st; induction lines as [|line rest IH]; intros st;
    [apply follows_refl|].
  rewrite sse_loop_cons.
  destruct (negb (is_data_line line)); [apply IH|].
  destruct (is_done_line line); [apply follows_refl|].
  unfold process_record.
  destruct (json_loads (drop 6 line)) as [data|].
  - pose proof (process_data_follows data st) as H1.
    destruct (process_data data st) as [[evs st1] r]; simpl.
    specialize (IH st1).
    destruct (sse_loop json_loads rest st1) as [[evs' st2] broke]; simpl in *.
    eapply follows_trans; eassumption.
  - specialize (IH st).
    now destruct (sse_loop json_loads rest st) as [[evs' st2] broke].
Qed.

(** X4: in the events of the record loop started with the flag down, an
    opening marker is at once followed by a thinking fragment and a
    closing marker at once by a text or by a batch of tool calls; no marker
    is the last event. *)
Theorem markers_have_neighbours (json_loads : string -> option pyval)
    (lines : list string) (l1 l2 : list event) (marker : event) :
  fst (fst (sse_loop json_loads lines initial_dstate)) = l1 ++ marker :: l2 ->
  (marker = OpenMarker -> exists c rest, l2 = Thinking c :: rest)
  /\ (marker = CloseMarker ->
      exists e rest, l2 = e :: rest /\ is_answer e = true).
Proof.
  intros E.
  pose proof (sse_loop_follows json_loads lines initial_dstate) as H.
  unfold follows in H; rewrite E, strict_run_app in H; simpl in H.
  destruct (strict_run SIdle l1) as [p|]; [|discriminate].
  split; intros ->.
  - destruct p; simpl in H; try discriminate.
    destruct l2 as [|e rest]; simpl in H.
    + now destruct (thinking_started _).
    + destruct e; simpl in H; try discriminate.
      now exists content, rest.
  - destruct p; simpl in H; try discriminate.
    destruct l2 as [|e rest]; simpl in H.
    + now destruct (thinking_started _).
    + destruct e; simpl in H; try discriminate;
        eexists _, rest; split; reflexivity.
Qed.

(** The closing marker of the first section of [Sample.two_sections] is
    followed by the text. *)
Lemma markers_have_neighbours_witness :
  exists e rest,
    Text (PStr "a") :: OpenMarker :: [Thinking (PStr "hmm")] = e :: rest
    /\ is_answer e = true.
Proof.
  exact (proj2 (markers_have_neighbours Sample.json_loads Sample.two_sections
                  [OpenMarker; Thinking (PStr "hmm")]
                  (Text (PStr "a") :: OpenMarker :: [Thinking (PStr "hmm")])
                  CloseMarker eq_refl)
           eq_refl).
Defined.

(** ** More on records and parts *)

(** X5: a record yields nothing and leaves the state as it is when its
    payload is no dictionary, when it has no 'response', when the response
    is no dictionary, or when the response has no 'candidates' or a falsy
    one (an empty list, [null], [false], 0, an empty string). *)
Theorem record_without_candidates (data : pyval) (st : dstate) :
  match data with
  | PDict d =>
      match dict_get d "response" (PDict []) with
      | PDict response =>
          truthy (dict_get response "candidates" (PList [])) = false
      | _ => True
      end
  | _ => True
  end ->
  fst (process_data data st) = ([], st).
Proof.
  unfold process_data, bind, lift, ret, get, dict_get.
  destruct data as [| b | z | f | s | l | d]; try reflexivity.
  destruct (match lookup "response" d with Some x => x | None => PDict [] end)
    as [| b | z | f | s | l | response]; try reflexivity.
  intros H; simpl; rewrite H; reflexivity.
Qed.

(** The record [{"response": {"candidates": []}}]. *)
Lemma record_without_candidates_witness :
  fst (process_data
         (PDict [("response", PDict [("candidates", PList [])])])
         (mk_dstate true [Sample.lookup_request]))
  = ([], mk_dstate true [Sample.lookup_request]).
Proof.
  exact (record_without_candidates
           (PDict [("response", PDict [("candidates", PList [])])])
           (mk_dstate true [Sample.lookup_request]) eq_refl).
Defined.

(** X6: of the candidates of a record only the first is decoded; the
    others, and every other key of the payload and of the response, play
    no part. *)
Theorem only_first_candidate (d response : list (string * pyval))
    (candidate : pyval) (others : list pyval) (st : dstate) :
  lookup "response" d = Some (PDict response) ->
  lookup "candidates" response = Some (PList (candidate :: others)) ->
  process_data (PDict d) st
  = process_data
      (PDict [("response", PDict [("candidates", PList [candidate])])]) st.
Proof.
  intros Hr Hc; unfold process_data, bind, lift, get; simpl.
  now rewrite Hr, Hc.
Qed.

(** A record with two candidates: the text of the second is not
    decoded. *)
Lemma only_first_candidate_witness :
  process_data
    (PDict [("response",
             PDict [("candidates",
                     PList [PDict [("content",
                                    PDict [("parts",
                                            PList [Sample.text_value "a"])])];
                            PDict [("content",
                                    PDict [("parts",
                                            PList [Sample.text_value "b"])])]])])])
    initial_dstate
  = process_data (Sample.record_value [Sample.text_value "a"] []) initial_dstate.
Proof.
  exact (only_first_candidate
           [("response",
             PDict [("candidates",
                     PList [PDict [("content",
                                    PDict [("parts",
                                            PList [Sample.text_value "a"])])];
                            PDict [("content",
                                    PDict [("parts",
                                            PList [Sample.text_value "b"])])]])])]
           [("candidates",
             PList [PDict [("content",
                            PDict [("parts", PList [Sample.text_value "a"])])];
                    PDict [("content",
                            PDict [("parts", PList [Sample.text_value "b"])])]])]
           (PDict [("content", PDict [("parts", PList [Sample.text_value "a"])])])
           [PDict [("content", PDict [("parts", PList [Sample.text_value "b"])])]]
           initial_dstate eq_refl eq_refl).
Defined.

(** X7: the kind of a part is decided in the order thought, text,
    function call.  A part whose 'thought' is [true] is a thinking
    fragment and a part with a 'text' is a text, whatever else they hold:
    a 'functionCall' beside them is not accumulated.  A dictionary with
    none of the three is passed over.  The fragment carries the 'text' of
    the part, the empty string when a thought has none. *)
Theorem part_kind_priority (d : list (string * pyval)) (st : dstate) :
  (is_True (dict_get d "thought" PNone) = true ->
   process_part (PDict d) st
   = ((if thinking_started st then [] else [OpenMarker])
      ++ [Thinking (dict_get d "text" (PStr ""))],
      mk_dstate true (tool_calls st), Ok tt))
  /\ (forall content,
        is_True (dict_get d "thought" PNone) = false ->
        lookup "text" d = Some content ->
        process_part (PDict d) st
        = ((if thinking_started st then [CloseMarker] else [])
           ++ [Text content],
           mk_dstate false (tool_calls st), Ok tt))
  /\ (is_True (dict_get d "thought" PNone) = false ->
      lookup "text" d = None -> lookup "functionCall" d = None ->
      process_part (PDict d) st = ([], st, Ok tt)).
Proof.
  destruct st as [th calls].
  unfold process_part, get, contains_key, getitem, dict_get; run_gen.
  repeat split.
  - intros ->; now destruct th.
  - intros content -> Ht; rewrite Ht; simpl.
    now destruct th.
  - intros -> -> ->; reflexivity.
Qed.

(** A part with a text and a function call: the call is dropped. *)
Lemma part_kind_priority_witness :
  process_part
    (PDict [("text", PStr "a");
            ("functionCall", PDict [("name", PStr "lookup")])])
    (mk_dstate true [])
  = ([CloseMarker] ++ [Text (PStr "a")], mk_dstate false [], Ok tt).
Proof.
  exact (proj1 (proj2 (part_kind_priority
                         [("text", PStr "a");
                          ("functionCall", PDict [("name", PStr "lookup")])]
                         (mk_dstate true [])))
           (PStr "a") eq_refl eq_refl).
Defined.

(** ** More on the failover loop *)

Lemma prefix_append (needle rest : string) :
  String.prefix needle (needle ++ rest) = true.
Proof.
  induction needle as [|c needle IH]; simpl; [now destruct rest|].
  destruct (ascii_dec c c); [exact IH | congruence].
Qed.

Lemma contains_unfold (needle haystack : string) :
  contains needle haystack
  = if String.prefix needle haystack then true
    else match haystack with
         | EmptyString => false
         | String _ rest => contains needle rest
         end.
Proof. now destruct haystack. Qed.

Lemma contains_here (needle rest : string) :
  contains needle (needle ++ rest) = true.
Proof. now rewrite contains_unfold, prefix_append. Qed.

Lemma contains_later (needle before rest : string) :
  contains needle rest = true -> contains needle (before ++ rest) = true.
Proof.
  intros H; induction before as [|c before IH]; [exact H|].
  rewrite contains_unfold; simpl append; cbv iota.
  rewrite IH; now destruct (String.prefix needle (String c (before ++ rest))).
Qed.

Lemma names_retry_status_later (before rest : string) :
  names_retry_status rest = true ->
  names_retry_status (before ++ rest) = true.
Proof.
  unfold names_retry_status; intros H.
  repeat (apply orb_prop in H; destruct H as [H|H]);
    rewrite (contains_later _ before rest H); now rewrite ?orb_true_r.
Qed.

Lemma in_429_500_status_of_error (error_str : string) :
  in_429_500 (status_of_error error_str) = names_retry_status error_str.
Proof.
  unfold status_of_error, names_retry_status.
  destruct (contains "429" error_str); [reflexivity|]; simpl.
  now destruct (contains "500" error_str || contains "502" error_str
                || contains "503" error_str || contains "504" error_str).
Qed.

Lemma all_space_cons (c1 : ascii) (r1 : string) :
  all_space (String c1 r1)
  = if is_space c1 then all_space r1
    else
      match r1 with
      | EmptyString => false
      | String c2 r2 =>
          if is_space2 c1 c2 then all_space r2
          else
            match r2 with
            | EmptyString => false
            | String c3 r3 => is_space3 c1 c2 c3 && all_space r3
            end
      end.
Proof. reflexivity. Qed.

Lemma lstrip_all_space_bounded (n : nat) :
  forall s, (String.length s <= n)%nat -> all_space (lstrip s) = all_space s.
Proof.
  induction n as [|n IH]; intros s H.
  - destruct s; [reflexivity | simpl in H; lia].
  - destruct s as [|c1 r1]; [reflexivity|].
    rewrite (all_space_cons c1 r1); cbn [lstrip].
    destruct (is_space c1) eqn:E1; [apply IH; simpl in H; lia|].
    destruct r1 as [|c2 r2]; [now rewrite all_space_cons, E1|].
    destruct (is_space2 c1 c2) eqn:E2; [apply IH; simpl in H; lia|].
    destruct r2 as [|c3 r3]; [now rewrite all_space_cons, E1, E2|].
    destruct (is_space3 c1 c2 c3) eqn:E3; [apply IH; simpl in H; lia|].
    now rewrite all_space_cons, E1, E2, E3.
Qed.

Lemma lstrip_all_space (s : string) : all_space (lstrip s) = all_space s.
Proof. now apply (lstrip_all_space_bounded (String.length s)). Qed.

Lemma rstrip_empty (s : string) : (rstrip s =? "")%string = all_space s.
Proof.
  destruct s as [|c rest]; [reflexivity|].
  cbn [rstrip].
  now destruct (all_space (String c rest)).
Qed.

Lemma strip_empty (s : string) : (strip s =? "")%string = all_space s.
Proof. unfold strip; now rewrite rstrip_empty, lstrip_all_space. Qed.

(** X8: the endpoints of a request are the primary URL alone when the
    backup URL is [None], empty or only whitespace, and the primary URL
    followed by the backup URL, as configured and not stripped,
    otherwise. *)
Theorem endpoints_of_backup (primary_url : string) (backup_url : option string) :
  endpoints_of primary_url backup_url
  = match backup_url with
    | Some b => if all_space b then [primary_url] else [primary_url; b]
    | None => [primary_url]
    end.
Proof.
  unfold endpoints_of; destruct backup_url as [b|]; [|reflexivity].
  rewrite strip_empty.
  destruct b as [|c b]; [reflexivity|].
  now destruct (all_space (String c b)).
Qed.

Section LoopFacts.

Variable json_loads : string -> option pyval.
Variable post : Z -> string -> connection.
Variable timeout : Z.

Local Abbreviation single := (_stream_generate_content_single json_loads post).
Local Abbreviation loop := (try_endpoints json_loads post timeout).
Local Abbreviation events_of := (attempt_events json_loads post).
Local Abbreviation last_of := (last_outcome json_loads post).
Local Abbreviation earlier_of := (earlier_outcomes json_loads post).

(** The shape of every run of the loop over a non-empty list. *)
Lemma loop_structure (rest : list string) :
  forall n endpoint_index last_error,
    rest <> [] ->
    n = endpoint_index + Z.of_nat (List.length rest) ->
    let r := loop n endpoint_index rest last_error in
    (exists first more tail,
        attempts r = first :: more /\ rest = attempts r ++ tail)
    /\ yielded r = events_of endpoint_index (attempts r)
    /\ raised r
       = option_map (surfaced timeout) (last_of endpoint_index (attempts r))
    /\ Forall failed_over (earlier_of endpoint_index (attempts r)).
Proof.
  induction rest as [|api_url rest IH]; intros n i last_error Hne Hn;
    [congruence|].
  assert (Hn' : n = i + 1 + Z.of_nat (List.length rest))
    by (simpl List.length in Hn; lia).
  destruct (single i api_url) as [chunks ended] eqn:Hs.
  assert (Hstop : forall o,
             let r := mk_run [api_url] chunks (option_map (surfaced timeout) o) in
             ended = o ->
             (exists first more tail,
                 attempts r = first :: more
                 /\ api_url :: rest = attempts r ++ tail)
             /\ yielded r = events_of i (attempts r)
             /\ raised r = option_map (surfaced timeout) (last_of i (attempts r))
             /\ Forall failed_over (earlier_of i (attempts r))).
  { intros o r Ho; subst r o; simpl; rewrite Hs; simpl.
    repeat split; [now exists api_url, [], rest | now rewrite app_nil_r
                  | constructor]. }
  destruct ended as [e|].
  - intros r; subst r.
    rewrite (try_endpoints_raise json_loads post timeout n i api_url rest
               last_error chunks e Hs Hn').
    destruct (fails_over e) eqn:Hf; [|exact (Hstop (Some e) eq_refl)].
    destruct rest as [|next rest']; [exact (Hstop (Some e) eq_refl)|].
    simpl andb; cbv iota.
    assert (Hn'' : n = i + 1 + Z.of_nat (List.length (next :: rest'))) by lia.
    destruct (IH n (i + 1) (Some (surfaced timeout e)) ltac:(discriminate) Hn'')
      as [[first [more [tail [Ha Hr]]]] [Hy [Hl He]]].
    rewrite attempts_and_then, yielded_and_then.
    cbn [raised and_then].
    rewrite Ha in *.
    repeat split.
    + exists api_url, (first :: more), tail; split; [reflexivity|].
      now rewrite Hr at 1.
    + cbn [attempt_events]; rewrite Hs, Hy; reflexivity.
    + exact Hl.
    + cbn [earlier_outcomes]; rewrite Hs; constructor; [|exact He].
      now exists e.
  - intros r; subst r.
    rewrite (try_endpoints_return json_loads post timeout n i api_url rest
               last_error chunks Hs).
    exact (Hstop None eq_refl).
Qed.

Lemma run_structure (primary_url : string) (backup_url : option string) :
  let r := stream_generate_content json_loads post timeout primary_url backup_url in
  (exists more tail,
      attempts r = primary_url :: more
      /\ endpoints_of primary_url backup_url = attempts r ++ tail)
  /\ yielded r = events_of 0 (attempts r)
  /\ raised r = option_map (surfaced timeout) (last_of 0 (attempts r))
  /\ Forall failed_over (earlier_of 0 (attempts r)).
Proof.
  unfold stream_generate_content.
  assert (Hne : endpoints_of primary_url backup_url <> [])
    by (unfold endpoints_of; discriminate).
  destruct (loop_structure (endpoints_of primary_url backup_url)
              (Z.of_nat (List.length (endpoints_of primary_url backup_url)))
              0 None Hne eq_refl)
    as [[first [more [tail [Ha Hr]]]] H].
  split; [|exact H].
  exists more, tail; split; [|exact Hr].
  rewrite Ha in Hr; unfold endpoints_of in Hr at 1.
  injection Hr as <- _; exact Ha.
Qed.

End LoopFacts.

(** X9: a run posts to the endpoints in the order of the list, starting
    with the primary URL and without leaving one out or posting twice: the
    URLs posted to are a non-empty prefix of the endpoints. *)
Theorem attempts_in_order (json_loads : string -> option pyval)
    (post : Z -> string -> connection) (timeout : Z) (primary_url : string)
    (backup_url : option string) :
  let r := stream_generate_content json_loads post timeout primary_url backup_url in
  exists more tail,
    attempts r = primary_url :: more
    /\ endpoints_of primary_url backup_url = attempts r ++ tail.
Proof.
  exact (proj1 (run_structure json_loads post timeout primary_url backup_url)).
Qed.

(** X10: the events a run yields are the events of every endpoint it
    posted to, one endpoint after the other: what an endpoint yielded
    before it failed is neither held back nor taken back when the loop
    goes on to the next. *)
Theorem yielded_is_all_attempts (json_loads : string -> option pyval)
    (post : Z -> string -> connection) (timeout : Z) (primary_url : string)
    (backup_url : option string) :
  let r := stream_generate_content json_loads post timeout primary_url backup_url in
  yielded r = attempt_events json_loads post 0 (attempts r).
Proof.
  exact (proj1 (proj2 (run_structure json_loads post timeout primary_url
                         backup_url))).
Qed.

(** X11: a run ends as the attempt on the last endpoint it posted to
    ended: it returns when that attempt returned, and raises that
    attempt's exception otherwise, a timeout being replaced by the
    [HTTPError] that tells the configured duration.  Every attempt before
    the last ended with an exception the loop fails over on. *)
Theorem run_ends_as_last_attempt (json_loads : string -> option pyval)
    (post : Z -> string -> connection) (timeout : Z) (primary_url : string)
    (backup_url : option string) :
  let r := stream_generate_content json_loads post timeout primary_url backup_url in
  raised r
  = option_map (surfaced timeout) (last_outcome json_loads post 0 (attempts r))
  /\ Forall failed_over (earlier_outcomes json_loads post 0 (attempts r)).
Proof.
  exact (proj2 (proj2 (run_structure json_loads post timeout primary_url
                         backup_url))).
Qed.

(** X12: a run never raises an [httpx.TimeoutException]: the timeout of
    the last endpoint reaches the caller as a plain [HTTPError]. *)
Theorem never_raises_timeout (json_loads : string -> option pyval)
    (post : Z -> string -> connection) (timeout : Z) (primary_url : string)
    (backup_url : option string) (e : exn) :
  raised (stream_generate_content json_loads post timeout primary_url backup_url)
  = Some e ->
  exn_class_of e <> TimeoutException.
Proof.
  destruct (run_structure json_loads post timeout primary_url backup_url)
    as [_ [_ [Hr _]]].
  rewrite Hr.
  destruct (last_outcome json_loads post 0 _) as [e0|]; [|discriminate].
  intros H; injection H as <-.
  unfold surfaced; destruct (exn_class_of e0) eqn:Hc; simpl; congruence.
Qed.

(** A timeout of the only endpoint. *)
Lemma never_raises_timeout_witness :
  exn_class_of (surfaced 120 Sample.read_timeout) <> TimeoutException.
Proof.
  exact (never_raises_timeout Sample.json_loads
           (fun _ _ => Failed Sample.read_timeout) 120 Sample.primary None
           (surfaced 120 Sample.read_timeout) eq_refl).
Defined.

Lemma retry_status_named (status : Z) (error_text : string) :
  In status [429; 500; 502; 503; 504] ->
  names_retry_status (exn_str (status_error status error_text)) = true.
Proof.
  unfold status_error; cbn [exn_str]; intros H.
  apply names_retry_status_later.
  unfold names_retry_status.
  simpl in H; destruct H as [<-|[<-|[<-|[<-|[<-|[]]]]]].
  - change (str_int 429) with "429"%string; now rewrite contains_here.
  - change (str_int 500) with "500"%string;
      now rewrite (contains_here "500"), ?orb_true_r.
  - change (str_int 502) with "502"%string;
      now rewrite (contains_here "502"), ?orb_true_r.
  - change (str_int 503) with "503"%string;
      now rewrite (contains_here "503"), ?orb_true_r.
  - change (str_int 504) with "504"%string;
      now rewrite (contains_here "504"), ?orb_true_r.
Qed.

(** X13: a response with the status 429, 500, 502, 503 or 504 yields no
    event, and the loop goes on with the next endpoint when one is left;
    on the last endpoint the [HTTPError] that names the status and the
    body is raised. *)
Theorem retry_statuses_fail_over (json_loads : string -> option pyval)
    (post : Z -> string -> connection) (timeout n endpoint_index : Z)
    (api_url : string) (rest : list string) (last_error : option exn)
    (r : response) (error_text : string) :
  post endpoint_index api_url = Opened r ->
  In (status_code r) [429; 500; 502; 503; 504] ->
  aread r = inr error_text ->
  n = endpoint_index + 1 + Z.of_nat (List.length rest) ->
  try_endpoints json_loads post timeout n endpoint_index (api_url :: rest)
    last_error
  = if remains rest
    then and_then api_url []
           (try_endpoints json_loads post timeout n (endpoint_index + 1) rest
              (Some (status_error (status_code r) error_text)))
    else mk_run [api_url] []
           (Some (status_error (status_code r) error_text)).
Proof.
  intros Hp Hin Ha Hn.
  assert (H403 : status_code r <> 403)
    by (intros E; rewrite E in Hin; simpl in Hin; intuition discriminate).
  assert (H200 : status_code r <> 200)
    by (intros E; rewrite E in Hin; simpl in Hin; intuition discriminate).
  pose proof (status_raises json_loads post _ _ _ _ Hp H403 H200 Ha) as Hs.
  rewrite (try_endpoints_raise json_loads post timeout n _ _ rest last_error
             _ _ Hs Hn).
  unfold fails_over, surfaced.
  replace (exn_class_of (status_error (status_code r) error_text))
    with HTTPError by reflexivity.
  now rewrite in_429_500_status_of_error, (retry_status_named _ _ Hin).
Qed.

(** A 503 from the primary endpoint, with a backup configured. *)
Lemma retry_statuses_fail_over_witness :
  try_endpoints Sample.json_loads
    (Sample.post_then_b (Sample.error_response 503 "busy")) 120
    2 0 [Sample.primary; Sample.backup] None
  = and_then Sample.primary []
      (try_endpoints Sample.json_loads
         (Sample.post_then_b (Sample.error_response 503 "busy")) 120
         2 1 [Sample.backup] (Some (status_error 503 "busy"))).
Proof.
  exact (retry_statuses_fail_over Sample.json_loads
           (Sample.post_then_b (Sample.error_response 503 "busy")) 120
           2 0 Sample.primary [Sample.backup] None
           (mk_response 503 (inr "busy") [] None) "busy"
           eq_refl (or_intror (or_intror (or_intror (or_introl eq_refl))))
           eq_refl eq_refl).
Defined.

(** X14: an [httpx.HTTPError] is told apart by its text alone: the loop
    goes on with the next endpoint exactly when the text holds "429",
    "500", "502", "503" or "504" somewhere and an endpoint is left, and
    raises the error again otherwise.  So the error of a response of any
    other status is failed over on as well when its body holds one of the
    five numbers. *)
Theorem http_error_told_by_text (json_loads : string -> option pyval)
    (post : Z -> string -> connection) (timeout n endpoint_index : Z)
    (api_url : string) (rest : list string) (last_error : option exn)
    (chunks : list event) (e : exn) :
  _stream_generate_content_single json_loads post endpoint_index api_url
  = (chunks, Some e) ->
  exn_class_of e = HTTPError ->
  n = endpoint_index + 1 + Z.of_nat (List.length rest) ->
  try_endpoints json_loads post timeout n endpoint_index (api_url :: rest)
    last_error
  = (if names_retry_status (exn_str e) && remains rest
     then and_then api_url chunks
            (try_endpoints json_loads post timeout n (endpoint_index + 1) rest
               (Some e))
     else mk_run [api_url] chunks (Some e))
  /\ (forall status error_text,
        names_retry_status error_text = true ->
        names_retry_status (exn_str (status_error status error_text)) = true).
Proof.
  intros Hs Hc Hn; split.
  - rewrite (try_endpoints_raise json_loads post timeout n _ _ rest last_error
               _ _ Hs Hn).
    unfold fails_over, surfaced; rewrite Hc.
    now rewrite in_429_500_status_of_error.
  - intros status error_text H; unfold status_error; cbn [exn_str].
    do 3 apply names_retry_status_later; exact H.
Qed.

(** A 404 whose body mentions the port 5000: the loop goes on to the
    backup endpoint. *)
Lemma http_error_told_by_text_witness :
  try_endpoints Sample.json_loads
    (Sample.post_then_b (Sample.error_response 404 "no route to :5000")) 120
    2 0 [Sample.primary; Sample.backup] None
  = and_then Sample.primary []
      (try_endpoints Sample.json_loads
         (Sample.post_then_b (Sample.error_response 404 "no route to :5000"))
         120 2 1 [Sample.backup]
         (Some (status_error 404 "no route to :5000"))).
Proof.
  exact (proj1 (http_error_told_by_text Sample.json_loads
                  (Sample.post_then_b
                     (Sample.error_response 404 "no route to :5000")) 120
                  2 0 Sample.primary [Sample.backup] None []
                  (status_error 404 "no route to :5000")
                  eq_refl eq_refl eq_refl)).
Defined.

(** ** More on the encoder *)

Section EncoderMore.

Variable json_dumps : pyval -> string.
Variable time_time : nat -> reading.

Local Abbreviation convert := (convert_sse_to_openai_format json_dumps time_time).

(** X15: the encoder takes every event of the decoder without an error.
    A text gives one framed chunk whose delta is the content, a batch of
    tool calls one framed chunk whose delta is the list of calls, both
    with no finish reason and with the stream id and the timestamp given
    or read from the clock; every thinking event gives the empty string. *)
Theorem encoder_accepts_decoder_events (e : event) (model : string)
    (stream_id : option string) (created : option Z) (k : nat) :
  let id := fst (stream_id_or_default time_time stream_id k) in
  let k1 := snd (stream_id_or_default time_time stream_id k) in
  let at_ := fst (created_or_default time_time created k1) in
  fst (convert (event_dict e) model stream_id created k)
  = Ok (match e with
        | Text content =>
            data_record
              (json_dumps (completion_chunk id at_ model
                             [("content", content)] PNone))
        | ToolCalls calls =>
            data_record
              (json_dumps (completion_chunk id at_ model
                             [("tool_calls", PList calls)] PNone))
        | _ => ""%string
        end).
Proof.
  intros id k1 at_; subst id k1 at_.
  unfold convert_sse_to_openai_format, chunk_of_event.
  destruct (stream_id_or_default time_time stream_id k) as [sid k1].
  cbn [fst snd].
  destruct (created_or_default time_time created k1) as [c k2].
  destruct e; reflexivity.
Qed.

Lemma eq_str_true (v : pyval) (s : string) : eq_str v s = true -> v = PStr s.
Proof.
  destruct v; simpl; try discriminate.
  intros H; apply String.eqb_eq in H; now subst.
Qed.

(** X16: the encoder raises in one case only: an event of the type
    'tool_calls' that has no 'tool_calls' key raises a [KeyError].  Every
    other event gives a string. *)
Theorem encoder_raises_on_missing_calls_only (sse_chunk : list (string * pyval))
    (model : string) (stream_id : option string) (created : option Z)
    (k : nat) :
  (eq_str (dict_get sse_chunk "type" PNone) "tool_calls" = true ->
   lookup "tool_calls" sse_chunk = None ->
   fst (convert sse_chunk model stream_id created k) = Raise KeyError)
  /\ (forall err,
        fst (convert sse_chunk model stream_id created k) = Raise err ->
        err = KeyError
        /\ eq_str (dict_get sse_chunk "type" PNone) "tool_calls" = true
        /\ lookup "tool_calls" sse_chunk = None).
Proof.
  unfold convert_sse_to_openai_format, chunk_of_event.
  destruct (stream_id_or_default time_time stream_id k) as [sid k1].
  destruct (created_or_default time_time created k1) as [c k2].
  split.
  - intros Ht Hl; rewrite (eq_str_true _ _ Ht), Hl; reflexivity.
  - intros err.
    destruct (eq_str _ "thinking"); [discriminate|].
    destruct (eq_str _ "tool_calls").
    + destruct (lookup "tool_calls" sse_chunk); [discriminate|].
      intros H; injection H as <-; now repeat split.
    + destruct (eq_str _ "text"); discriminate.
Qed.

(** X17: a call reads the clock once for a stream id that is missing or
    empty and once for a timestamp that is missing or zero, and not at
    all when both are given, whatever the event; the terminal chunk does
    the same. *)
Theorem clock_read_when_needed (sse_chunk : list (string * pyval))
    (model : string) (has_tool_calls : bool) (stream_id : option string)
    (created : option Z) (k : nat) :
  snd (convert sse_chunk model stream_id created k)
  = (k + clock_reads stream_id created)%nat
  /\ snd (generate_finish_chunk json_dumps time_time model has_tool_calls
            stream_id created k)
     = (k + clock_reads stream_id created)%nat.
Proof.
  assert (H : snd (created_or_default time_time created
                     (snd (stream_id_or_default time_time stream_id k)))
              = (k + clock_reads stream_id created)%nat).
  { unfold stream_id_or_default, created_or_default, clock_reads, now.
    destruct stream_id as [s|]; [destruct (s =? "")%string|];
      (destruct created as [c|]; [destruct (c =? 0)|]); simpl; lia. }
  unfold convert_sse_to_openai_format, chunk_of_event, generate_finish_chunk,
    finish_chunk.
  destruct (stream_id_or_default time_time stream_id k) as [sid k1].
  cbn [snd] in H.
  destruct (created_or_default time_time created k1) as [c k2].
  cbn [snd] in H; subst k2; split; [|reflexivity].
  destruct (eq_str _ "thinking"); [reflexivity|].
  destruct (eq_str _ "tool_calls").
  - now destruct (lookup "tool_calls" sse_chunk).
  - now destruct (eq_str _ "text").
Qed.

End EncoderMore.

(** An event of the type 'tool_calls' with no list. *)
Lemma encoder_raises_on_missing_calls_only_witness :
  fst (convert_sse_to_openai_format (fun _ => "{}"%string) Sample.ticking
         [("type", PStr "tool_calls")] "m" None None 0%nat)
  = Raise KeyError.
Proof.
  exact (proj1 (encoder_raises_on_missing_calls_only (fun _ => "{}"%string)
                  Sample.ticking [("type", PStr "tool_calls")] "m"
                  None None 0%nat)
           eq_refl eq_refl).
Defined.

(** ** The list of models *)

Lemma keys_in (d : list (string * pyval)) (k : string) :
  In k (keys d) <-> In k (map fst d).
Proof.
  induction d as [|[k0 v] d IH]; simpl; [tauto|].
  rewrite filter_In, IH; split.
  - intros [H | [H _]]; auto.
  - intros [H | H]; [now left|].
    destruct (String.eqb_spec k k0) as [->|Hne]; [now left|].
    right; split; [exact H | reflexivity].
Qed.

(** X18: on a response with the status 200 whose JSON is a dictionary,
    [get_available_models] returns a list with one entry for each key of
    'models', in their order, and none when there is no 'models'; an entry
    has the key as its id and the fixed values 'model', 1700000000 and
    'google', whatever the backend says about the model.  When 'models' is
    no dictionary the call raises an [AttributeError]. *)
Theorem models_list_shape (r : models_response) (d : list (string * pyval))
    (timeout : Z) :
  models_status r = 200 ->
  models_json r = inr (PDict d) ->
  (lookup "models" d = None ->
   get_available_models (PostReturned r) timeout
   = Returned (PDict [("object", PStr "list"); ("data", PList [])]))
  /\ (forall models,
        lookup "models" d = Some (PDict models) ->
        exists entries,
          get_available_models (PostReturned r) timeout
          = Returned (PDict [("object", PStr "list"); ("data", PList entries)])
          /\ map (field "id") entries
             = map (fun k => Some (PStr k)) (keys models)
          /\ (forall k, In (Some (PStr k)) (map (field "id") entries)
                        <-> In k (map fst models))
          /\ Forall (fun entry =>
                       field "object" entry = Some (PStr "model")
                       /\ field "created" entry = Some (PInt 1700000000)
                       /\ field "owned_by" entry = Some (PStr "google"))
               entries)
  /\ (forall models,
        lookup "models" d = Some models ->
        (forall m, models <> PDict m) ->
        get_available_models (PostReturned r) timeout = RaisedPy AttributeError).
Proof.
  intros Hs Hj; unfold get_available_models; rewrite Hs, Hj; simpl.
  split; [|split].
  - intros ->; reflexivity.
  - intros models ->.
    exists (map model_entry (keys models)); split; [reflexivity|].
    assert (Hid : map (field "id") (map model_entry (keys models))
                  = map (fun k => Some (PStr k)) (keys models))
      by (rewrite map_map; apply map_ext; reflexivity).
    split; [exact Hid | split].
    + intros k; rewrite Hid, in_map_iff, <- keys_in; split.
      * intros [k' [E Hin]]; now injection E as <-.
      * intros Hin; now exists k.
    + apply Forall_forall; intros entry Hin.
      apply in_map_iff in Hin; destruct Hin as [k [<- _]].
      now repeat split.
  - intros models -> Hnot.
    destruct models as [| b | z | f | s | l | m]; try reflexivity.
    now destruct (Hnot m).
Qed.

(** The reply [{}]: no model, and no error. *)
Lemma models_list_shape_witness :
  get_available_models
    (PostReturned (mk_models_response 200 "{}" (inr (PDict [])))) 30
  = Returned (PDict [("object", PStr "list"); ("data", PList [])]).
Proof.
  exact (proj1 (models_list_shape
                  (mk_models_response 200 "{}" (inr (PDict []))) [] 30
                  eq_refl eq_refl)
           eq_refl).
Defined.

(** X19: [get_available_models] returns only on a response with the
    status 200 whose JSON was read; on any other status it raises the
    [HTTPError] that names the status and the text, whatever the JSON
    holds; and it never raises an [httpx.TimeoutException], which it
    replaces by an [HTTPError] that tells the configured duration. *)
Theorem models_errors (reply : models_post) (timeout : Z) :
  (forall v,
      get_available_models reply timeout = Returned v ->
      exists r data,
        reply = PostReturned r /\ models_status r = 200
        /\ models_json r = inr data)
  /\ (forall r,
        reply = PostReturned r -> models_status r <> 200 ->
        get_available_models reply timeout
        = Raised (mk_exn HTTPError
                    ("获取模型列表失败 (" ++ str_int (models_status r) ++ "): "
                     ++ models_text r)))
  /\ (forall e,
        get_available_models reply timeout = Raised e ->
        exn_class_of e <> TimeoutException)
  /\ (forall e,
        reply = PostRaised e -> exn_class_of e = TimeoutException ->
        get_available_models reply timeout
        = Raised (mk_exn HTTPError
                    ("获取模型列表超时（超过 " ++ str_int timeout ++ " 秒）"))).
Proof.
  assert (Hh : forall e0 e,
             models_handler timeout e0 = Raised e ->
             exn_class_of e <> TimeoutException).
  { intros e0 e; unfold models_handler.
    destruct (exn_class_of e0) eqn:Hc; intros H; injection H as <-;
      simpl; congruence. }
  assert (Hv : forall e0 v, models_handler timeout e0 <> Returned v)
    by (intros e0 v; unfold models_handler; now destruct (exn_class_of e0)).
  unfold get_available_models.
  split; [|split; [|split]].
  - intros v; destruct reply as [e0|r]; [intros H; now apply Hv in H|].
    destruct (models_status r =? 200) eqn:Hs; simpl;
      [|intros H; now apply Hv in H].
    destruct (models_json r) as [e0|data] eqn:Hj;
      [intros H; now apply Hv in H|].
    intros _; exists r, data; split; [reflexivity|].
    split; [now apply Z.eqb_eq | exact Hj].
  - intros r -> Hs; apply Z.eqb_neq in Hs; rewrite Hs; reflexivity.
  - intros e; destruct reply as [e0|r]; [apply Hh|].
    destruct (negb (models_status r =? 200)); [apply Hh|].
    destruct (models_json r) as [e0|data]; [apply Hh|].
    destruct (get data "models" (PDict [])) as [[| b | z | f | s | l | m]|err];
      discriminate.
  - intros e -> Hc; unfold models_handler; now rewrite Hc.
Qed.

(** A timeout of the post, with the default duration of 30 seconds. *)
Lemma models_errors_witness :
  get_available_models (PostRaised Sample.read_timeout) 30
  = Raised (mk_exn HTTPError
              ("获取模型列表超时（超过 " ++ str_int 30 ++ " 秒）")).
Proof.
  exact (proj2 (proj2 (proj2 (models_errors (PostRaised Sample.read_timeout) 30)))
           Sample.read_timeout eq_refl eq_refl).
Defined.
